(** * Whale Watch Bot: the aggregation and signal engine of [main.py]

    A shallow embedding of the functions of [main.py] that fetch the four
    dashboard sections, fall back to [SAMPLE_OVERVIEW], build the insight
    message and decide which alerts are raised.

    Python values are the values the JSON decoder produces.  Exceptions are
    explicit: a computation that may raise returns a [result].  Code that
    talks to the network, reads the clock or sends a message runs in a state
    monad over a [world] that records every request and every message. *)

From Stdlib Require Import ZArith QArith Qabs List String Ascii Bool Lia.
From Stdlib Require Import SpecFloat DecimalString.
Import ListNotations.

Local Open Scope string_scope.
Local Open Scope Z_scope.
Set Warnings "-register-all".

(** ** Python values *)

(** What [resp.json()] can return.  A [float] is an IEEE binary64, given by
    the Standard Library's [spec_float].  A [dict] keeps its insertion order,
    as Python's does, hence the association list.  A [str] is a [string]; the
    program measures and slices addresses only. *)
Inductive value : Type :=
| VNone
| VBool (b : bool)
| VInt (z : Z)
| VFloat (f : spec_float)
| VStr (s : string)
| VList (l : list value)
| VDict (d : list (string * value)).

(** [bool(v)]: the truth value Python's [if], [not], [and] and [or] use. *)
Definition truthy (v : value) : bool :=
  match v with
  | VNone => false
  | VBool b => b
  | VInt z => negb (z =? 0)
  | VFloat (S754_zero _) => false
  | VFloat _ => true
  | VStr s => negb (String.eqb s "")
  | VList l => match l with [] => false | _ :: _ => true end
  | VDict d => match d with [] => false | _ :: _ => true end
  end.

(** [a or b] *)
Definition py_or (a b : value) : value := if truthy a then a else b.

(** [v is not None] *)
Definition is_not_None (v : value) : bool :=
  match v with VNone => false | _ => true end.

(** [isinstance(v, (int, float))]; [bool] is a subclass of [int]. *)
Definition isinstance_int_float (v : value) : bool :=
  match v with
  | VBool _ | VInt _ | VFloat _ => true
  | _ => false
  end.

(** ** Exceptions *)

(** Instances of Python's [Exception] class.  [LibraryError] stands for what
    a library call raises (a request error, an HTTP error status, a body that
    does not decode). *)
Inductive exn : Type :=
| AttributeError
| TypeError
| ValueError
| OverflowError
| LibraryError (name : string).

Inductive result (A : Type) : Type :=
| Ok (a : A)
| Raise (e : exn).
Arguments Ok {A} a.
Arguments Raise {A} e.

Definition rbind {A B} (c : result A) (k : A -> result B) : result B :=
  match c with
  | Ok a => k a
  | Raise e => Raise e
  end.

Declare Scope result_scope.
Delimit Scope result_scope with res.
Notation "x <- c ;; k" := (rbind c (fun x => k))
  (at level 61, c at next level, right associativity) : result_scope.

(** ** Dictionaries *)

Fixpoint assoc (d : list (string * value)) (k : string) : option value :=
  match d with
  | [] => None
  | (k', v) :: d' => if String.eqb k k' then Some v else assoc d' k
  end.

(** [d.get(k, default)] for the items [d] of a [dict]. *)
Definition dict_get (d : list (string * value)) (k : string) (default : value) : value :=
  match assoc d k with
  | Some v => v
  | None => default
  end.

(** [o.get(k, default)]; only a [dict] has the method. *)
Definition py_get (o : value) (k : string) (default : value) : result value :=
  match o with
  | VDict d => Ok (dict_get d k default)
  | _ => Raise AttributeError
  end.

(** ** The fallback data *)

(** The float literals of [SAMPLE_OVERVIEW], each the binary64 nearest to
    the decimal written in the source. *)
Definition f_3757_84 : spec_float := S754_finite false 8263577550643528 (-41).
Definition f_m13_22 : spec_float := S754_finite true 7442198384229745 (-49).
Definition f_100_0 : spec_float := S754_finite false 7036874417766400 (-46).
Definition f_1851370_43 : spec_float := S754_finite false 7951575449631457 (-32).
Definition f_39365167_96 : spec_float := S754_finite false 5283503405929595 (-27).

(** The overview object: a [dict] with the four fixed keys. *)
Record overview : Type := {
  market : value;
  exchange_flows : value;
  stablecoin : value;
  whale_transfers : value
}.

Definition SAMPLE_OVERVIEW : overview := {|
  market := VDict [
    ("symbol", VStr "ETH"); ("price_usd", VFloat f_3757_84);
    ("price_change_24h_pct", VFloat f_m13_22);
    ("volume_24h_usd", VInt 104010000000);
    ("market_cap_usd", VInt 454450000000)];
  exchange_flows := VDict [
    ("total_inflow", VInt 530276600); ("total_outflow", VInt 663261947);
    ("net_flow", VInt (-132985346));
    ("sentiment", VStr "Strong Accumulation (Bullish)")];
  stablecoin := VDict [
    ("stablecoin_inflow_ratio_pct", VFloat f_100_0);
    ("stablecoin_net_flow", VInt (-20000000));
    ("mode", VStr "Risk-Off -> Deploying")];
  whale_transfers := VList [
    VDict [("token", VStr "USDT"); ("from", VStr "0xc0ba...1a09");
           ("to", VStr "0x28c6...1d60"); ("amount", VFloat f_1851370_43)];
    VDict [("token", VStr "USDT"); ("from", VStr "0x17dc...403a");
           ("to", VStr "0xaa8b...3efb"); ("amount", VFloat f_39365167_96)]]
|}.

(** ** Building the overview from the four answers *)

(** The body of [fetch_dashboard_overview] after its four [try_get] calls:
    [market_], [flows], [stable] and [whales] are what the calls returned,
    [VNone] for a call that failed. *)
Definition build_overview (market_ flows stable whales : value) : overview :=
  if truthy market_ && truthy flows && truthy stable && is_not_None whales then
    {| market := market_; exchange_flows := flows;
       stablecoin := stable; whale_transfers := whales |}
  else
    {| market := py_or market_ (market SAMPLE_OVERVIEW);
       exchange_flows := py_or flows (exchange_flows SAMPLE_OVERVIEW);
       stablecoin := py_or stable (stablecoin SAMPLE_OVERVIEW);
       whale_transfers := py_or whales (whale_transfers SAMPLE_OVERVIEW) |}.

(** ** Numbers and their comparisons *)

(** What a Python number denotes: a rational, an infinity, or not-a-number. *)
Inductive xnum : Type :=
| NaN
| NegInf
| PosInf
| Fin (q : Q).

(** The value [(-1)^s * m * 2^e] of a finite binary64. *)
Definition finite_value (s : bool) (m : positive) (e : Z) : Q :=
  let sm := if s then Z.neg m else Z.pos m in
  match e with
  | Z0 => inject_Z sm
  | Zpos p => inject_Z (sm * 2 ^ Zpos p)
  | Zneg p => Qmake sm (2 ^ p)
  end.

Definition float_value (f : spec_float) : xnum :=
  match f with
  | S754_zero _ => Fin 0
  | S754_infinity s => if s then NegInf else PosInf
  | S754_nan => NaN
  | S754_finite s m e => Fin (finite_value s m e)
  end.

(** [number v] is [Some] exactly when [isinstance(v, (int, float))] holds;
    [True] and [False] count as [1] and [0]. *)
Definition number (v : value) : option xnum :=
  match v with
  | VBool b => Some (Fin (if b then 1 else 0))
  | VInt z => Some (Fin (inject_Z z))
  | VFloat f => Some (float_value f)
  | _ => None
  end.

(** Python compares an [int] and a [float] by their exact values; every
    comparison with not-a-number is false. *)
Definition cmpZ (x : xnum) (c : Z) : option comparison :=
  match x with
  | NaN => None
  | NegInf => Some Lt
  | PosInf => Some Gt
  | Fin q => Some (q ?= inject_Z c)%Q
  end.

(** [x < c], [x <= c], [x > c], [x >= c] *)
Definition num_lt (x : xnum) (c : Z) : bool :=
  match cmpZ x c with Some Lt => true | _ => false end.
Definition num_le (x : xnum) (c : Z) : bool :=
  match cmpZ x c with Some Lt | Some Eq => true | _ => false end.
Definition num_gt (x : xnum) (c : Z) : bool :=
  match cmpZ x c with Some Gt => true | _ => false end.
Definition num_ge (x : xnum) (c : Z) : bool :=
  match cmpZ x c with Some Gt | Some Eq => true | _ => false end.

(** The order the comparisons decide, as propositions. *)
Definition below (x : xnum) (c : Z) : Prop :=
  match x with
  | NegInf => True
  | Fin q => (q < inject_Z c)%Q
  | _ => False
  end.
Definition at_most (x : xnum) (c : Z) : Prop :=
  match x with
  | NegInf => True
  | Fin q => (q <= inject_Z c)%Q
  | _ => False
  end.
Definition above (x : xnum) (c : Z) : Prop :=
  match x with
  | PosInf => True
  | Fin q => (inject_Z c < q)%Q
  | _ => False
  end.
Definition at_least (x : xnum) (c : Z) : Prop :=
  match x with
  | PosInf => True
  | Fin q => (inject_Z c <= q)%Q
  | _ => False
  end.

(** ** Text *)

Definition nl : string := String (ascii_of_nat 10) "".

(** ["\n".join(lines)] *)
Definition join_lines (lines : list string) : string := String.concat nl lines.

(** [s.rstrip("/")] *)
Fixpoint rstrip_slash (s : string) : string :=
  match s with
  | "" => ""
  | String c s' =>
      let r := rstrip_slash s' in
      if Ascii.eqb c "/" && String.eqb r "" then "" else String c r
  end.

(** [len(v)] *)
Definition py_len (v : value) : result nat :=
  match v with
  | VStr s => Ok (String.length s)
  | VList l => Ok (List.length l)
  | VDict d => Ok (List.length d)
  | _ => Raise TypeError
  end.

(** [v[:n]] for a [str] or a [list]; before Python 3.12 a [dict] raises
    [TypeError] here (an unhashable key), later [KeyError]: it raises. *)
Definition slice_to (n : nat) (v : value) : result value :=
  match v with
  | VStr s => Ok (VStr (substring 0 n s))
  | VList l => Ok (VList (firstn n l))
  | _ => Raise TypeError
  end.

(** [v[-n:]] *)
Definition slice_last (n : nat) (v : value) : result value :=
  match v with
  | VStr s => Ok (VStr (substring (String.length s - n) n s))
  | VList l => Ok (VList (skipn (List.length l - n) l))
  | _ => Raise TypeError
  end.

(** [for t in v]: the items the loop visits. *)
Definition py_iter (v : value) : result (list value) :=
  match v with
  | VList l => Ok l
  | VDict d => Ok (map (fun kv => VStr (fst kv)) d)
  | VStr s => Ok (map (fun c => VStr (String c "")) (list_ascii_of_string s))
  | _ => Raise TypeError
  end.

(** ** Clock *)

(** What [datetime.utcnow()] returns, to the second. *)
Record datetime : Type := {
  year : N; month : N; day : N; hour : N; minute : N; second : N
}.

Definition dec (n : N) : string := NilEmpty.string_of_uint (N.to_uint n).

Definition pad2 (n : N) : string :=
  if (n <? 10)%N then "0" ++ dec n else dec n.

Definition pad4 (n : N) : string :=
  if (n <? 10)%N then "000" ++ dec n
  else if (n <? 100)%N then "00" ++ dec n
  else if (n <? 1000)%N then "0" ++ dec n
  else dec n.

(** [t.strftime('%Y-%m-%d %H:%M:%S')] *)
Definition strftime (t : datetime) : string :=
  pad4 (year t) ++ "-" ++ pad2 (month t) ++ "-" ++ pad2 (day t) ++ " "
  ++ pad2 (hour t) ++ ":" ++ pad2 (minute t) ++ ":" ++ pad2 (second t).

(** ** What the interpreter and the libraries provide *)

(** Python's built-ins the program relies on and does not define:
    [repr], [format(n, ",.2f")] (it raises [OverflowError] on an [int] too
    large for a [float]) and [int(s)]. *)
Class PyRuntime : Type := {
  repr : value -> string;
  format_comma_2f : value -> result string;
  py_int : string -> result Z
}.

(** The [requests] library and the clock.  [Net] is the state of everything
    outside the process; a request may change it. *)
Class Outside : Type := {
  Net : Type;
  response : Type;
  requests_get : string -> list (string * string) -> Z -> Net -> result response * Net;
  raise_for_status : response -> result unit;
  response_json : response -> result value;
  utcnow : Net -> datetime
}.

(** The environment variables the functions below read; [os.getenv] gives
    [None] for a variable that is not set. *)
Record config : Type := {
  DASHBOARD_API_URL : option string;
  ADMIN_CHAT_ID : option string;
  API_KEY : option string
}.

(** The truth value of what [os.getenv] returned. *)
Definition env_truthy (o : option string) : bool :=
  match o with
  | None => false
  | Some s => negb (String.eqb s "")
  end.

(** ** Formatting helpers of [main.py] *)

Section Formatting.
Context {R : PyRuntime}.

(** [str(v)], which is also how an f-string prints [{v}]. *)
Definition py_str (v : value) : string :=
  match v with
  | VStr s => s
  | _ => repr v
  end.

(** [fmt_usd]: a number prints as dollars; anything else, and a number whose
    formatting raised, prints as [str(n)]. *)
Definition fmt_usd (n : value) : string :=
  match
    (if isinstance_int_float n then
       s <- format_comma_2f n ;; Ok ("$" ++ s)
     else Ok (py_str n))%res
  with
  | Ok s => s
  | Raise _ => py_str n
  end.

(** [short_addr] *)
Definition short_addr (addr : value) : result value :=
  if negb (truthy addr) then Ok (py_or addr (VStr ""))
  else
    (n <- py_len addr ;;
     if (n <? 10)%nat then Ok (py_or addr (VStr ""))
     else
       a <- slice_to 6 addr ;;
       b <- slice_last 4 addr ;;
       Ok (VStr (py_str a ++ "..." ++ py_str b)))%res.

(** ** The insight message *)

Definition header_line (price : value) : string := "Insight — ETH " ++ fmt_usd price.

Definition flow_accumulation : string :=
  "🔵 Flows: Net outflows → accumulation (bullish signal).".
Definition flow_distribution : string :=
  "🔴 Flows: Net inflows → distribution / sell pressure.".
Definition flow_neutral : string := "⚪ Flows: Neutral.".

Definition stable_risk_off : string :=
  "🟠 Stablecoin: High inflow ratio → risk-off (whales holding safety).".
Definition stable_accumulation : string :=
  "🟢 Stablecoin: Low ratio → deploying into crypto (accumulation).".
Definition stable_mixed : string := "🟡 Stablecoin: Mixed / transitional state.".

Definition combined_accumulation : string :=
  "✅ Combined: Whales pulling assets and deploying stablecoins → strong accumulation.".
Definition combined_divergence : string :=
  "⚠ Tokens leaving but stablecoins coming in — watch closely.".
Definition combined_bearish : string :=
  "❌ Distribution + stablecoin build-up → bearish posture.".

Definition timestamp_line (now : datetime) : string :=
  nl ++ "_As of " ++ strftime now ++ " UTC_".

(** Flow interpretation: the lines appended for [netf]. *)
Definition flow_lines (netf : value) : list string :=
  match number netf with
  | Some x =>
      if num_lt x 0 then [flow_accumulation]
      else if num_gt x 0 then [flow_distribution]
      else [flow_neutral]
  | None => []
  end.

(** Stablecoin signals: the lines appended for [ratio]. *)
Definition stable_lines (ratio : value) : list string :=
  match number ratio with
  | Some r =>
      if num_ge r 70 then [stable_risk_off]
      else if num_le r 30 then [stable_accumulation]
      else [stable_mixed]
  | None => []
  end.

(** Combined heuristic: the lines appended for [netf] and [stable_net]. *)
Definition combined_lines (netf stable_net : value) : list string :=
  match number netf, number stable_net with
  | Some x, Some y =>
      if num_lt x 0 && num_lt y 0 then [combined_accumulation]
      else if num_lt x 0 && num_gt y 0 then [combined_divergence]
      else if num_gt x 0 && num_gt y 0 then [combined_bearish]
      else []
  | _, _ => []
  end.

(** The lines [insight_cmd] builds from the overview [ov]; [now] is what
    [datetime.utcnow()] returns when the last line is appended. *)
Definition derive_insight (ov : overview) (now : datetime) : result (list string) :=
  (let f := exchange_flows ov in
   let s := stablecoin ov in
   let m := market ov in
   netf <- py_get f "net_flow" VNone ;;
   ratio <- py_get s "stablecoin_inflow_ratio_pct" VNone ;;
   stable_net <- py_get s "stablecoin_net_flow" VNone ;;
   price <- py_get m "price_usd" (VStr "N/A") ;;
   Ok ([header_line price]
       ++ flow_lines netf
       ++ stable_lines ratio
       ++ combined_lines netf stable_net
       ++ [timestamp_line now])%list)%res.

(** ** The alerts *)

Definition ACCUM_THRESHOLD : Z := -50000000.
Definition DIST_THRESHOLD : Z := 50000000.
Definition BIG_TX_THRESHOLD : Z := 10000000.

Definition accumulation_alert (netf : value) : string :=
  "🚨 Strong accumulation: Net Flow = " ++ fmt_usd netf.
Definition distribution_alert (netf : value) : string :=
  "⚠ Strong distribution: Net Flow = " ++ fmt_usd netf.

(** The text of the alert for transfer [t] of amount [amt]. *)
Definition whale_alert (t amt : value) : result string :=
  (token <- py_get t "token" VNone ;;
   from <- py_get t "from" VNone ;;
   src <- short_addr from ;;
   to <- py_get t "to" VNone ;;
   dst <- short_addr to ;;
   Ok ("🐋 Whale transfer: " ++ fmt_usd amt ++ " " ++ py_str token
       ++ " from " ++ py_str src ++ " to " ++ py_str dst))%res.

(** The alerts appended for [netf]: the two tests are separate [if]s. *)
Definition flow_alerts (netf : value) : list string :=
  match number netf with
  | Some x =>
      ((if num_le x ACCUM_THRESHOLD then [accumulation_alert netf] else [])
       ++ (if num_ge x DIST_THRESHOLD then [distribution_alert netf] else []))%list
  | None => []
  end.

(** [amt >= BIG_TX_THRESHOLD], guarded by the [isinstance] test. *)
Definition big_amount (amt : value) : bool :=
  match number amt with
  | Some a => num_ge a BIG_TX_THRESHOLD
  | None => false
  end.

(** The [for t in whales] loop: the alerts it appends, in order. *)
Fixpoint whale_alerts (ts : list value) : result (list string) :=
  match ts with
  | [] => Ok []
  | t :: ts' =>
      (amt <- py_get t "amount" (VInt 0) ;;
       here <- (if big_amount amt
                then line <- whale_alert t amt ;; Ok [line]
                else Ok []) ;;
       rest <- whale_alerts ts' ;;
       Ok (here ++ rest)%list)%res
  end.

(** The list [alerts] that [check_and_send_alert] builds from [ov]. *)
Definition evaluate_alerts (ov : overview) : result (list string) :=
  (let f := exchange_flows ov in
   let whales := whale_transfers ov in
   netf <- py_get f "net_flow" (VInt 0) ;;
   ts <- py_iter whales ;;
   ws <- whale_alerts ts ;;
   Ok (flow_alerts netf ++ ws)%list)%res.

End Formatting.

(** ** Effects *)

(** What the process does.  [Sent] is a message delivered to the operator
    channel and [Replied] a reply delivered to the user of a command;
    [Unawaited] is a call of the coroutine function [send_message] whose
    coroutine is never awaited, so that nothing is delivered. *)
Inductive event : Type :=
| Requested (url : string) (hdrs : list (string * string))
| LoggedDebug (url : string) (e : exn)
| Sent (chat_id : Z) (text : string)
| Replied (text : string)
| Unawaited (chat_id : Z) (text : string).

Section Effects.
Context {R : PyRuntime} {O : Outside}.
Variable cfg : config.

(** The state a computation runs in: the outside, and the events so far,
    oldest first. *)
Record world : Type := {
  outside : Net;
  events : list event
}.

Definition IO (A : Type) : Type := world -> result A * world.

Definition io_ret {A} (a : A) : IO A := fun w => (Ok a, w).

Definition io_bind {A B} (c : IO A) (k : A -> IO B) : IO B :=
  fun w =>
    match c w with
    | (Ok a, w') => k a w'
    | (Raise e, w') => (Raise e, w')
    end.

(** [try: c  except Exception as e: h e]; what [c] did before it raised
    stays done. *)
Definition io_catch {A} (c : IO A) (h : exn -> IO A) : IO A :=
  fun w =>
    match c w with
    | (Ok a, w') => (Ok a, w')
    | (Raise e, w') => h e w'
    end.

Definition io_lift {A} (r : result A) : IO A := fun w => (r, w).

Definition emit (ev : event) : IO unit :=
  fun w => (Ok tt, {| outside := outside w; events := events w ++ [ev] |}).

Declare Scope io_scope.
Delimit Scope io_scope with io.
Notation "x <- c ;; k" := (io_bind c (fun x => k))
  (at level 61, c at next level, right associativity) : io_scope.

(** [requests.get(url, headers=hdrs, timeout=timeout)] *)
Definition http_get (url : string) (hdrs : list (string * string)) (timeout : Z)
  : IO response :=
  fun w =>
    let (r, n) := requests_get url hdrs timeout (outside w) in
    (r, {| outside := n; events := events w ++ [Requested url hdrs] |}).

(** [headers] *)
Definition headers : list (string * string) :=
  let h := [("Accept", "application/json")] in
  match API_KEY cfg with
  | None | Some "" => h
  | Some key => (h ++ [("Authorization", ("Bearer " ++ key)%string)])%list
  end.

(** [try_get] *)
Definition try_get (path : string) : IO value :=
  match DASHBOARD_API_URL cfg with
  | None | Some "" => io_ret VNone
  | Some base =>
      let url := rstrip_slash base ++ path in
      io_catch
        (resp <- http_get url headers 8 ;;
         _ <- io_lift (raise_for_status resp) ;;
         io_lift (response_json resp))%io
        (fun e => (_ <- emit (LoggedDebug url e) ;; io_ret VNone)%io)
  end.

(** [fetch_dashboard_overview] *)
Definition fetch_dashboard_overview : IO overview :=
  (market_ <- try_get "/api/market" ;;
   flows <- try_get "/api/exchange_flows" ;;
   stable <- try_get "/api/stablecoin" ;;
   whales <- try_get "/api/whale_transfers" ;;
   io_ret (build_overview market_ flows stable whales))%io.



(** [check_and_send_alert].  It is a plain [def], and [app.bot.send_message]
    is a coroutine function of the library (the handlers [await] the
    library's calls): the call on the last line evaluates
    [int(ADMIN_CHAT_ID)] and builds a coroutine that is never awaited. *)
Definition check_and_send_alert : IO unit :=
  match ADMIN_CHAT_ID cfg with
  | None | Some "" => io_ret tt
  | Some admin =>
      (ov <- fetch_dashboard_overview ;;
       alerts <- io_lift (evaluate_alerts ov) ;;
       match alerts with
       | [] => io_ret tt
       | _ :: _ =>
           let text := join_lines alerts in
           chat_id <- io_lift (py_int admin) ;;
           emit (Unawaited chat_id text)
       end)%io
  end.

End Effects.

(** ** The command handlers *)

(** Python's [format(n, "+.2f")] of a number, the other built-in the
    handlers rely on. *)
Class PySigned : Type := {
  format_plus_2f : value -> result string
}.

(** The world after one more event. *)
Definition record_event {O : Outside} (ev : event) (w : world) : world :=
  {| outside := outside w; events := events w ++ [ev] |}.

Section Commands.
Context {R : PyRuntime} {S : PySigned} {O : Outside}.
Variable cfg : config.

Declare Scope io_scope.
Delimit Scope io_scope with io.
Notation "x <- c ;; k" := (io_bind c (fun x => k))
  (at level 61, c at next level, right associativity) : io_scope.

(** [f"{v:+.2f}"]: text has no such format code, and [None], a [list] and a
    [dict] take no format string. *)
Definition py_format_plus_2f (v : value) : result string :=
  match v with
  | VBool _ | VInt _ | VFloat _ => format_plus_2f v
  | VStr _ => Raise ValueError
  | VNone | VList _ | VDict _ => Raise TypeError
  end.

(** The message of [market_cmd] for the market section [m]. *)
Definition market_text (m : value) (now : datetime) : result string :=
  (price <- py_get m "price_usd" (VStr "N/A") ;;
   change <- py_get m "price_change_24h_pct" (VInt 0) ;;
   change_text <- py_format_plus_2f change ;;
   volume <- py_get m "volume_24h_usd" (VStr "N/A") ;;
   cap <- py_get m "market_cap_usd" (VStr "N/A") ;;
   Ok ("ETH Market Overview" ++ nl ++ nl
       ++ "Price: " ++ fmt_usd price ++ " (24h: " ++ change_text ++ "%)" ++ nl
       ++ "24h Volume: " ++ fmt_usd volume ++ nl
       ++ "Market Cap: " ++ fmt_usd cap ++ nl
       ++ "As of " ++ strftime now ++ " UTC"))%res.






(** The line of [whales_cmd] for the transfer [t]. *)
Definition whale_line (t : value) : result string :=
  (token <- py_get t "token" (VStr "") ;;
   from <- py_get t "from" VNone ;;
   src <- short_addr from ;;
   to <- py_get t "to" VNone ;;
   dst <- short_addr to ;;
   amt <- py_get t "amount" (VStr "N/A") ;;
   Ok ("- " ++ py_str token ++ " " ++ py_str src ++ " → " ++ py_str dst
       ++ " : " ++ fmt_usd amt))%res.

(** The [for t in transfers] loop of [whales_cmd]: the lines it appends. *)
Fixpoint whale_lines (ts : list value) : result (list string) :=
  match ts with
  | [] => Ok []
  | t :: ts' =>
      (line <- whale_line t ;;
       rest <- whale_lines ts' ;;
       Ok (line :: rest))%res
  end.

(** The message of [whales_cmd] for the whale section [whales]. *)
Definition whales_text (whales : value) : result string :=
  (transfers <- slice_to 10 whales ;;
   if negb (truthy transfers) then Ok "No recent whale transfers."
   else
     ts <- py_iter transfers ;;
     lines <- whale_lines ts ;;
     Ok (join_lines ("Recent Whale Transfers" :: lines)))%res.


End Commands.

(** ** A runtime and an outside to run the definitions on *)

(** Digits of a number with a comma between groups of three. *)
Fixpoint commas_rev (l : list ascii) (k : nat) : list ascii :=
  match l with
  | [] => []
  | c :: l' =>
      match k with
      | 3%nat => "," :: c :: commas_rev l' 1
      | _ => c :: commas_rev l' (S k)
      end
  end%char.

Definition with_commas (n : N) : string :=
  string_of_list_ascii (rev (commas_rev (rev (list_ascii_of_string (dec n))) 0)).

(** The non-negative rational [a / b] rounded to hundredths, ties to even. *)
Definition round_cents (a : Z) (b : positive) : Z :=
  let n := (100 * a) / Z.pos b in
  let r := (100 * a) mod Z.pos b in
  match (2 * r ?= Z.pos b) with
  | Gt => n + 1
  | Eq => if Z.even n then n else n + 1
  | Lt => n
  end.

Definition fixed_2f (neg : bool) (a : Z) (b : positive) : string :=
  let c := round_cents a b in
  (if neg then "-" else "")
  ++ with_commas (Z.to_N (c / 100)) ++ "." ++ pad2 (Z.to_N (c mod 100)).

(** [format(f, ",.2f")] for a float. *)
Definition float_comma_2f (f : spec_float) : string :=
  match f with
  | S754_zero s => fixed_2f s 0 1
  | S754_infinity s => if s then "-inf" else "inf"
  | S754_nan => "nan"
  | S754_finite s m e =>
      let q := finite_value false m e in
      fixed_2f s (Qnum q) (Qden q)
  end.

(** [float(z)]: the nearest binary64, ties to even. *)
Definition float_of_int (z : Z) : result spec_float :=
  match binary_normalize 53 1024 z 0 false with
  | S754_infinity _ => Raise OverflowError
  | f => Ok f
  end.

Definition demo_format (v : value) : result string :=
  match v with
  | VBool b => Ok (if b then "1.00" else "0.00")
  | VInt z => (f <- float_of_int z ;; Ok (float_comma_2f f))%res
  | VFloat f => Ok (float_comma_2f f)
  | VStr _ => Raise ValueError
  | _ => Raise TypeError
  end.

Definition dec_Z (z : Z) : string :=
  match z with
  | Zneg p => "-" ++ dec (Npos p)
  | _ => dec (Z.to_N z)
  end.

(** [repr] of [None], a [bool] and an [int]; other values print as dots. *)
Definition demo_repr (v : value) : string :=
  match v with
  | VNone => "None"
  | VBool b => if b then "True" else "False"
  | VInt z => dec_Z z
  | _ => "..."
  end.

Definition digit_of (c : ascii) : option Z :=
  let n := Z.of_nat (nat_of_ascii c) in
  if (48 <=? n) && (n <=? 57) then Some (n - 48) else None.

Fixpoint digits_value (s : string) (acc : Z) : result Z :=
  match s with
  | "" => Ok acc
  | String c s' =>
      match digit_of c with
      | Some d => digits_value s' (10 * acc + d)
      | None => Raise ValueError
      end
  end.

(** [int(s)] for a plain decimal, signed or not. *)
Definition demo_int (s : string) : result Z :=
  match s with
  | "" => Raise ValueError
  | String "-" ((String _ _) as s') => (n <- digits_value s' 0 ;; Ok (- n))%res
  | String _ _ => digits_value s 0
  end.

Definition demo_runtime : PyRuntime := {|
  repr := demo_repr;
  format_comma_2f := demo_format;
  py_int := demo_int
|}.

(** An answer of the upstream API: the status, and the body decoded when it
    is JSON. *)
Record reply : Type := {
  status_code : Z;
  body : option value
}.

(** An outside that answers the requests from a script, one entry a
    request; with the script used up the network is unreachable. *)
Record scripted : Type := {
  pending : list (result reply);
  time : datetime
}.

Definition scripted_get (url : string) (hdrs : list (string * string)) (timeout : Z)
    (n : scripted) : result reply * scripted :=
  match pending n with
  | [] => (Raise (LibraryError "ConnectionError"), n)
  | r :: rest => (r, {| pending := rest; time := time n |})
  end.

(** [raise_for_status] is that of [requests]: it raises for a status from
    400 to 599 and for no other. *)
Definition scripted_outside : Outside := {|
  Net := scripted;
  response := reply;
  requests_get := scripted_get;
  raise_for_status := fun r =>
    if (400 <=? status_code r) && (status_code r <? 600)
    then Raise (LibraryError "HTTPError") else Ok tt;
  response_json := fun r =>
    match body r with
    | Some v => Ok v
    | None => Raise (LibraryError "JSONDecodeError")
    end;
  utcnow := time
|}.

Definition new_year_2025 : datetime :=
  {| year := 2025; month := 1; day := 1; hour := 0; minute := 0; second := 0 |}.

Definition one_second_later : datetime :=
  {| year := 2025; month := 1; day := 1; hour := 0; minute := 0; second := 1 |}.

Definition unreachable : @world scripted_outside :=
  @Build_world scripted_outside {| pending := []; time := new_year_2025 |} [].

Definition no_admin : config :=
  {| DASHBOARD_API_URL := Some "https://api.example/";
     ADMIN_CHAT_ID := None; API_KEY := None |}.

Definition with_admin : config :=
  {| DASHBOARD_API_URL := Some "https://api.example/";
     ADMIN_CHAT_ID := Some "42"; API_KEY := Some "k" |}.

(** An overview with the given net flow, inflow ratio, stablecoin net flow
    and transfers, and the sample market. *)
Definition overview_of (netf ratio stable_net : value) (whales : list value) : overview :=
  {| market := market SAMPLE_OVERVIEW;
     exchange_flows := VDict [("net_flow", netf)];
     stablecoin := VDict [("stablecoin_inflow_ratio_pct", ratio);
                          ("stablecoin_net_flow", stable_net)];
     whale_transfers := VList whales |}.

(** A transfer of USDT of the given amount. *)
Definition transfer_of (amt : value) : value :=
  VDict [("token", VStr "USDT"); ("from", VStr "0xc0ba...1a09");
         ("to", VStr "0x28c6...1d60"); ("amount", amt)].

(** An overview whose numeric fields are absent or are text. *)
Definition sparse_overview : overview :=
  {| market := VDict [("symbol", VStr "ETH")];
     exchange_flows := VDict [("net_flow", VStr "n/a")];
     stablecoin := VDict [("mode", VStr "unknown")];
     whale_transfers := VList [] |}.

Definition ok_reply (v : value) : result reply :=
  Ok {| status_code := 200; body := Some v |}.

(** A world whose upstream answers the four calls with the sample data. *)
Definition answering : @world scripted_outside :=
  @Build_world scripted_outside
    {| pending := [ok_reply (market SAMPLE_OVERVIEW);
                   ok_reply (exchange_flows SAMPLE_OVERVIEW);
                   ok_reply (stablecoin SAMPLE_OVERVIEW);
                   ok_reply (whale_transfers SAMPLE_OVERVIEW)];
       time := new_year_2025 |} [].

(** [format(f, "+.2f")] for a float: the sign always, no commas. *)
Definition float_plus_2f (f : spec_float) : string :=
  match f with
  | S754_zero s => if s then "-0.00" else "+0.00"
  | S754_infinity s => if s then "-inf" else "+inf"
  | S754_nan => "+nan"
  | S754_finite s m e =>
      let q := finite_value false m e in
      let c := round_cents (Qnum q) (Qden q) in
      (if s then "-" else "+") ++ dec (Z.to_N (c / 100)) ++ "." ++ pad2 (Z.to_N (c mod 100))
  end.

Definition demo_plus (v : value) : result string :=
  match v with
  | VBool b => Ok (if b then "+1.00" else "+0.00")
  | VInt z => (f <- float_of_int z ;; Ok (float_plus_2f f))%res
  | VFloat f => Ok (float_plus_2f f)
  | VStr _ => Raise ValueError
  | _ => Raise TypeError
  end.

Definition demo_signed : PySigned := {| format_plus_2f := demo_plus |}.

(** A configuration with no base URL, and two that differ by a trailing
    slash of the base URL. *)
Definition no_base_url : config :=
  {| DASHBOARD_API_URL := None; ADMIN_CHAT_ID := Some "42"; API_KEY := None |}.

Definition bare_base_url : config :=
  {| DASHBOARD_API_URL := Some "https://api.example";
     ADMIN_CHAT_ID := Some "42"; API_KEY := Some "k" |}.

(** A world whose upstream answers the next call with the status 300 and a
    JSON body. *)
Definition multiple_choices : @world scripted_outside :=
  @Build_world scripted_outside
    {| pending := [Ok {| status_code := 300;
                         body := Some (VDict [("symbol", VStr "ETH")]) |}];
       time := new_year_2025 |} [].

(** ** Predicates the statements use *)

(** An address is a [str], or [None] when the key is absent. *)
Definition is_address (v : value) : bool :=
  match v with VStr _ | VNone => true | _ => false end.

(** A whale transfer is a JSON object whose addresses are addresses. *)
Definition is_transfer (t : value) : bool :=
  match t with
  | VDict d =>
      is_address (dict_get d "from" VNone) && is_address (dict_get d "to" VNone)
  | _ => false
  end.

(** [t.get("amount", 0)] of a transfer. *)
Definition amount_of (t : value) : value :=
  match t with
  | VDict d => dict_get d "amount" (VInt 0)
  | _ => VNone
  end.

(** The transfers that meet the big-transaction threshold. *)
Definition qualifying (ts : list value) : list value :=
  filter (fun t => big_amount (amount_of t)) ts.

(** The first four bytes of a text: enough to tell the lines apart. *)
Definition lead (s : string) : string := substring 0 4 s.

Definition whale_lead : string := lead "🐋 Whale transfer: ".

(** What one transfer adds to the alerts: its alert when its amount meets
    the threshold, nothing otherwise. *)
Definition transfer_alerts {R : PyRuntime} (t : value) : result (list string) :=
  if big_amount (amount_of t)
  then (line <- whale_alert t (amount_of t) ;; Ok [line])%res
  else Ok [].

(** The lines of each rule of the insight. *)
Definition flow_texts : list string :=
  [flow_accumulation; flow_distribution; flow_neutral].
Definition stable_texts : list string :=
  [stable_risk_off; stable_accumulation; stable_mixed].
Definition combined_texts : list string :=
  [combined_accumulation; combined_divergence; combined_bearish].

(** A JSON object. *)
Definition is_object (v : value) : bool :=
  match v with VDict _ => true | _ => false end.

(** [k] slashes. *)
Fixpoint slashes (k : nat) : string :=
  match k with
  | O => ""
  | S k' => String "/" (slashes k')
  end.

(** The URLs requested, oldest first. *)
Fixpoint requested_urls (evs : list event) : list string :=
  match evs with
  | [] => []
  | Requested url _ :: evs' => url :: requested_urls evs'
  | _ :: evs' => requested_urls evs'
  end.

(** The events that are messages: replies to a command and messages sent to
    the operator. *)
Fixpoint messages (evs : list event) : list event :=
  match evs with
  | [] => []
  | Sent c t :: evs' => Sent c t :: messages evs'
  | Replied t :: evs' => Replied t :: messages evs'
  | _ :: evs' => messages evs'
  end.


(** * Properties *)

(** Membership of a line in the zero or one line a rule emits. *)
Ltac line_iff :=
  simpl; split;
  [ first [ intros [K | []]; first [discriminate K | tauto] | intros [] ]
  | intros; first [left; reflexivity | exfalso; tauto] ].

(** ** Comparisons decide the order *)

Lemma num_lt_below x c : num_lt x c = true <-> below x c.
Proof.
  destruct x as [| | |q]; unfold num_lt, below; simpl;
    try (split; [discriminate | contradiction]);
    try (split; [easy | reflexivity]).
  rewrite Qlt_alt. destruct (q ?= inject_Z c)%Q; split; congruence.
Qed.

Lemma num_gt_above x c : num_gt x c = true <-> above x c.
Proof.
  destruct x as [| | |q]; unfold num_gt, above; simpl;
    try (split; [discriminate | contradiction]);
    try (split; [easy | reflexivity]).
  rewrite Qgt_alt. destruct (q ?= inject_Z c)%Q; split; congruence.
Qed.

Lemma num_le_at_most x c : num_le x c = true <-> at_most x c.
Proof.
  destruct x as [| | |q]; unfold num_le, at_most; simpl;
    try (split; [discriminate | contradiction]);
    try (split; [easy | reflexivity]).
  rewrite Qle_alt. destruct (q ?= inject_Z c)%Q; split; congruence.
Qed.

Lemma num_ge_at_least x c : num_ge x c = true <-> at_least x c.
Proof.
  destruct x as [| | |q]; unfold num_ge, at_least; simpl;
    try (split; [discriminate | contradiction]);
    try (split; [easy | reflexivity]).
  change (inject_Z c <= q)%Q with (q >= inject_Z c)%Q.
  rewrite Qge_alt. destruct (q ?= inject_Z c)%Q; split; congruence.
Qed.

(** On integers the order is the order of [Z]. *)
Lemma at_most_int z c : at_most (Fin (inject_Z z)) c <-> z <= c.
Proof. simpl. rewrite <- Zle_Qle. reflexivity. Qed.

Lemma at_least_int z c : at_least (Fin (inject_Z z)) c <-> c <= z.
Proof. simpl. rewrite <- Zle_Qle. reflexivity. Qed.

Lemma below_int z c : below (Fin (inject_Z z)) c <-> z < c.
Proof. simpl. rewrite <- Zlt_Qlt. reflexivity. Qed.

Lemma above_int z c : above (Fin (inject_Z z)) c <-> c < z.
Proof. simpl. rewrite <- Zlt_Qlt. reflexivity. Qed.

(** No number is both at most [c] and at least [d] when [c < d]. *)
Lemma at_most_at_least_exclusive x c d : c < d -> at_most x c -> at_least x d -> False.
Proof.
  intros Hcd. destruct x as [| | |q]; simpl; try contradiction.
  intros H1 H2. rewrite Zlt_Qlt in Hcd.
  apply (Qlt_irrefl (inject_Z c)).
  eapply Qlt_le_trans; [exact Hcd|]. eapply Qle_trans; eassumption.
Qed.

Lemma below_above_exclusive x c : below x c -> above x c -> False.
Proof.
  destruct x as [| | |q]; simpl; try contradiction.
  intros H1 H2. apply (Qlt_irrefl q). eapply Qlt_trans; eassumption.
Qed.

Lemma number_isinstance v : isinstance_int_float v = true <-> exists x, number v = Some x.
Proof.
  destruct v; simpl; split; intros H; try discriminate; eauto;
    destruct H as [x H]; discriminate.
Qed.

(** The float constants of the sample are normalised binary64 values within
    half a unit in the last place of the decimals written in the source. *)
Lemma sample_floats_nearest :
  Qle_bool (Qabs (finite_value false 8263577550643528 (-41) - (375784 # 100)))
    (1 # 2 ^ 42) = true
  /\ Qle_bool (Qabs (finite_value true 7442198384229745 (-49) - (-1322 # 100)))
       (1 # 2 ^ 50) = true
  /\ (finite_value false 7036874417766400 (-46) == 100)%Q
  /\ Qle_bool (Qabs (finite_value false 7951575449631457 (-32) - (185137043 # 100)))
       (1 # 2 ^ 33) = true
  /\ Qle_bool (Qabs (finite_value false 5283503405929595 (-27) - (3936516796 # 100)))
       (1 # 2 ^ 28) = true
  /\ Forall (fun m => 2 ^ 52 <= m < 2 ^ 53)
       [8263577550643528; 7442198384229745; 7036874417766400;
        7951575449631457; 5283503405929595].
Proof.
  repeat match goal with |- _ /\ _ => split end; try reflexivity.
  repeat constructor; vm_compute; congruence.
Qed.

(** ** Building the overview: live sections and fallback *)

Lemma py_or_truthy a b : truthy a = true -> py_or a b = a.
Proof. unfold py_or. intros ->. reflexivity. Qed.

(** The three object sections are taken by truth value on both paths. *)
Lemma build_overview_market m f s w :
  market (build_overview m f s w) = py_or m (market SAMPLE_OVERVIEW).
Proof.
  unfold build_overview, py_or.
  destruct (truthy m), (truthy f), (truthy s), (is_not_None w); reflexivity.
Qed.

Lemma build_overview_exchange_flows m f s w :
  exchange_flows (build_overview m f s w) = py_or f (exchange_flows SAMPLE_OVERVIEW).
Proof.
  unfold build_overview, py_or.
  destruct (truthy m), (truthy f), (truthy s), (is_not_None w); reflexivity.
Qed.

Lemma build_overview_stablecoin m f s w :
  stablecoin (build_overview m f s w) = py_or s (stablecoin SAMPLE_OVERVIEW).
Proof.
  unfold build_overview, py_or.
  destruct (truthy m), (truthy f), (truthy s), (is_not_None w); reflexivity.
Qed.

(** The whale section is taken as it is on the first path only. *)
Lemma build_overview_whale_transfers m f s w :
  whale_transfers (build_overview m f s w) =
    if (truthy m && truthy f && truthy s && is_not_None w)%bool then w
    else py_or w (whale_transfers SAMPLE_OVERVIEW).
Proof.
  unfold build_overview.
  destruct (truthy m && truthy f && truthy s && is_not_None w)%bool; reflexivity.
Qed.

(** With the three object sections live, an empty list of transfers stays. *)
Lemma empty_whale_list_kept m f s :
  truthy m = true -> truthy f = true -> truthy s = true ->
  whale_transfers (build_overview m f s (VList [])) = VList [].
Proof.
  intros Hm Hf Hs. rewrite build_overview_whale_transfers, Hm, Hf, Hs. reflexivity.
Qed.

(** C1, at the input where the claim fails: the market call fails, the
    exchange-flows and stablecoin calls return data, and the whale-transfers
    call succeeds with an empty list.  The whale section of the overview is
    then the two sample transfers of [SAMPLE_OVERVIEW], not the empty list. *)
Theorem empty_whale_list_replaced_on_partial_failure :
  whale_transfers
    (build_overview VNone (exchange_flows SAMPLE_OVERVIEW)
       (stablecoin SAMPLE_OVERVIEW) (VList []))
  = whale_transfers SAMPLE_OVERVIEW
  /\ whale_transfers SAMPLE_OVERVIEW <> VList [].
Proof. split; [reflexivity | discriminate]. Qed.

(** C2 as stated fails: with the market call failed and the exchange-flows
    call answering an empty object, the exchange-flows section is the sample
    one, not the empty object the call returned. *)
Lemma empty_flows_answer_is_replaced :
  exchange_flows
    (build_overview VNone (VDict []) (stablecoin SAMPLE_OVERVIEW)
       (whale_transfers SAMPLE_OVERVIEW))
  = exchange_flows SAMPLE_OVERVIEW
  /\ exchange_flows SAMPLE_OVERVIEW <> VDict [].
Proof. split; [reflexivity | discriminate]. Qed.

(** C2, amended: a section whose call returned non-empty data is that data;
    and when exactly one call fails while the other three return non-empty
    data, that section is the one of [SAMPLE_OVERVIEW] and the other three
    are the data returned. *)
Theorem build_overview_sections (m f s w : value) :
  let ov := build_overview m f s w in
  (truthy m = true -> market ov = m)
  /\ (truthy f = true -> exchange_flows ov = f)
  /\ (truthy s = true -> stablecoin ov = s)
  /\ (truthy w = true -> whale_transfers ov = w)
  /\ (m = VNone -> truthy f = true -> truthy s = true -> truthy w = true ->
      market ov = market SAMPLE_OVERVIEW
      /\ exchange_flows ov = f /\ stablecoin ov = s /\ whale_transfers ov = w)
  /\ (f = VNone -> truthy m = true -> truthy s = true -> truthy w = true ->
      exchange_flows ov = exchange_flows SAMPLE_OVERVIEW
      /\ market ov = m /\ stablecoin ov = s /\ whale_transfers ov = w)
  /\ (s = VNone -> truthy m = true -> truthy f = true -> truthy w = true ->
      stablecoin ov = stablecoin SAMPLE_OVERVIEW
      /\ market ov = m /\ exchange_flows ov = f /\ whale_transfers ov = w)
  /\ (w = VNone -> truthy m = true -> truthy f = true -> truthy s = true ->
      whale_transfers ov = whale_transfers SAMPLE_OVERVIEW
      /\ market ov = m /\ exchange_flows ov = f /\ stablecoin ov = s).
Proof.
  intros ov. subst ov.
  rewrite build_overview_market, build_overview_exchange_flows,
    build_overview_stablecoin, build_overview_whale_transfers.
  repeat split; intros;
    repeat match goal with
           | H : ?x = VNone |- _ => subst x
           | H : truthy ?x = true |- _ => rewrite ?H, ?(py_or_truthy _ _ H); clear H
           end;
    simpl; try reflexivity;
    match goal with
    | |- (if ?b then _ else _) = _ => destruct b; reflexivity
    end.
Qed.

(** ** The insight message *)

Section Insight.
Context {R : PyRuntime}.

Lemma lead_neq a b : lead a <> lead b -> a <> b.
Proof. intros H E. apply H. rewrite E. reflexivity. Qed.

Lemma lead_header price : lead (header_line price) = "Insi".
Proof. reflexivity. Qed.

Lemma lead_timestamp now : lead (timestamp_line now) = nl ++ "_As".
Proof. reflexivity. Qed.

(** A rule's line is none of the header and the timestamp. *)
Lemma rule_text_inside l price now :
  In l (flow_texts ++ stable_texts ++ combined_texts) ->
  l <> header_line price /\ l <> timestamp_line now.
Proof.
  intros H. split; apply lead_neq; rewrite ?lead_header, ?lead_timestamp;
    simpl in H; repeat destruct H as [<- | H]; try contradiction; discriminate.
Qed.

Lemma flow_lines_incl v : incl (flow_lines v) flow_texts.
Proof.
  unfold flow_lines, flow_texts. intros l.
  destruct (number v) as [x|]; [|contradiction].
  destruct (num_lt x 0), (num_gt x 0); simpl; tauto.
Qed.

Lemma stable_lines_incl v : incl (stable_lines v) stable_texts.
Proof.
  unfold stable_lines, stable_texts. intros l.
  destruct (number v) as [x|]; [|contradiction].
  destruct (num_ge x 70), (num_le x 30); simpl; tauto.
Qed.

Lemma combined_lines_incl v v' : incl (combined_lines v v') combined_texts.
Proof.
  unfold combined_lines, combined_texts. intros l.
  destruct (number v) as [x|]; [|contradiction].
  destruct (number v') as [y|]; [|contradiction].
  destruct (num_lt x 0), (num_lt y 0), (num_gt x 0), (num_gt y 0); simpl; tauto.
Qed.

(** The three rules have no line in common. *)
Lemma texts_apart l :
  (In l flow_texts -> ~ In l stable_texts /\ ~ In l combined_texts)
  /\ (In l stable_texts -> ~ In l flow_texts /\ ~ In l combined_texts)
  /\ (In l combined_texts -> ~ In l flow_texts /\ ~ In l stable_texts).
Proof.
  repeat match goal with |- _ /\ _ => split end;
    intros H; split; intros K; simpl in H, K;
    repeat destruct H as [<- | H]; try contradiction;
    repeat destruct K as [K | K]; try contradiction; discriminate.
Qed.

(** On an overview whose sections are objects the message is built, and it
    is the header, the lines of the three rules, and the timestamp. *)
Lemma derive_insight_shape ov f s m now :
  exchange_flows ov = VDict f -> stablecoin ov = VDict s -> market ov = VDict m ->
  derive_insight ov now =
    Ok (header_line (dict_get m "price_usd" (VStr "N/A"))
        :: flow_lines (dict_get f "net_flow" VNone)
        ++ stable_lines (dict_get s "stablecoin_inflow_ratio_pct" VNone)
        ++ combined_lines (dict_get f "net_flow" VNone)
             (dict_get s "stablecoin_net_flow" VNone)
        ++ [timestamp_line now])%list.
Proof. intros Hf Hs Hm. unfold derive_insight. rewrite Hf, Hs, Hm. reflexivity. Qed.

(** Where a rule's line can sit in the message: in the rule's own part. *)
Lemma in_message l price A B C now :
  incl A flow_texts -> incl B stable_texts -> incl C combined_texts ->
  (In l flow_texts ->
   (In l (header_line price :: A ++ B ++ C ++ [timestamp_line now]) <-> In l A))
  /\ (In l stable_texts ->
   (In l (header_line price :: A ++ B ++ C ++ [timestamp_line now]) <-> In l B))
  /\ (In l combined_texts ->
   (In l (header_line price :: A ++ B ++ C ++ [timestamp_line now]) <-> In l C)).
Proof.
  intros HA HB HC.
  pose proof (texts_apart l) as (Tf & Ts & Tc).
  repeat match goal with |- _ /\ _ => split end; intros K0; split; intros K;
    try (simpl; rewrite ?in_app_iff; simpl; tauto);
    assert (Hl : In l (flow_texts ++ stable_texts ++ combined_texts))
      by (rewrite !in_app_iff; tauto);
    destruct (rule_text_inside l price now Hl) as [Hh Ht];
    simpl in K; rewrite !in_app_iff in K; simpl in K;
    destruct K as [K | [K | [K | [K | [K | []]]]]];
    try assumption; try congruence;
    try (apply HA in K); try (apply HB in K); try (apply HC in K); tauto.
Qed.

End Insight.

Lemma below_not_at_least x c : below x c -> ~ at_least x c.
Proof.
  destruct x as [| | |q]; simpl; try tauto.
  intros H1 H2. apply (Qlt_irrefl q). eapply Qlt_le_trans; eassumption.
Qed.

Lemma above_not_at_most x c : above x c -> ~ at_most x c.
Proof.
  destruct x as [| | |q]; simpl; try tauto.
  intros H1 H2. apply (Qlt_irrefl q). eapply Qle_lt_trans; eassumption.
Qed.

Lemma bool_iff_false (b : bool) (P : Prop) : (b = true <-> P) -> b = false -> ~ P.
Proof. intros [_ H] E p. rewrite (H p) in E. discriminate. Qed.

Section InsightRules.
Context {R : PyRuntime}.

(** The stablecoin rule, read off its three branches. *)
Lemma stable_lines_spec v r :
  number v = Some r ->
  (In stable_risk_off (stable_lines v) <-> at_least r 70)
  /\ (In stable_accumulation (stable_lines v) <-> ~ at_least r 70 /\ at_most r 30)
  /\ (In stable_mixed (stable_lines v) <-> ~ at_least r 70 /\ ~ at_most r 30).
Proof.
  intros Hv. unfold stable_lines. rewrite Hv.
  pose proof (num_ge_at_least r 70) as Hge.
  pose proof (num_le_at_most r 30) as Hle.
  destruct (num_ge r 70) eqn:E1.
  - assert (at_least r 70) by (apply Hge; reflexivity).
    split; [|split]; line_iff.
  - pose proof (bool_iff_false _ _ Hge eq_refl).
    destruct (num_le r 30) eqn:E2.
    + assert (at_most r 30) by (apply Hle; reflexivity).
      split; [|split]; line_iff.
    + pose proof (bool_iff_false _ _ Hle eq_refl).
      split; [|split]; line_iff.
Qed.

(** The combined rule, read off its three branches. *)
Lemma combined_lines_spec v v' x y :
  number v = Some x -> number v' = Some y ->
  (In combined_accumulation (combined_lines v v') <-> below x 0 /\ below y 0)
  /\ (In combined_divergence (combined_lines v v') <-> below x 0 /\ above y 0)
  /\ (In combined_bearish (combined_lines v v') <-> above x 0 /\ above y 0).
Proof.
  intros Hv Hv'. unfold combined_lines. rewrite Hv, Hv'.
  pose proof (num_lt_below x 0) as Hx. pose proof (num_lt_below y 0) as Hy.
  pose proof (num_gt_above x 0) as Gx. pose proof (num_gt_above y 0) as Gy.
  pose proof (below_above_exclusive x 0) as Ex.
  pose proof (below_above_exclusive y 0) as Ey.
  destruct (num_lt x 0) eqn:E1; destruct (num_lt y 0) eqn:E2;
    destruct (num_gt x 0) eqn:E3; destruct (num_gt y 0) eqn:E4; simpl;
    repeat match goal with
           | H : true = true <-> _ |- _ => apply proj1 in H; specialize (H eq_refl)
           | H : false = true <-> _ |- _ =>
               apply (fun h => bool_iff_false false _ h eq_refl) in H
           end;
    (split; [|split]; line_iff).
Qed.

(** The flow rule emits nothing for a value that is not a number, and so
    does the combined rule when either of its values is not a number. *)
Lemma flow_lines_not_a_number v : number v = None -> flow_lines v = [].
Proof. unfold flow_lines. intros ->. reflexivity. Qed.

Lemma stable_lines_not_a_number v : number v = None -> stable_lines v = [].
Proof. unfold stable_lines. intros ->. reflexivity. Qed.

Lemma combined_lines_not_a_number v v' :
  number v = None \/ number v' = None -> combined_lines v v' = [].
Proof.
  unfold combined_lines. intros [-> | ->]; [reflexivity|].
  destruct (number v); reflexivity.
Qed.

(** A key that is absent reads as [None], which is not a number. *)
Lemma absent_not_a_number d k : assoc d k = None -> number (dict_get d k VNone) = None.
Proof. unfold dict_get. intros ->. reflexivity. Qed.

End InsightRules.

Section InsightClaims.
Context {R : PyRuntime}.

(** C3, amended: on an overview whose market, exchange-flows and stablecoin
    sections are objects the insight is built without an error; it is a body
    that depends on the overview alone, followed by the timestamp of the
    clock reading.  When the net flow is absent or not a number the body has
    no flow line and no combined line; when the inflow ratio is, no
    stablecoin line; when the stablecoin net flow is, no combined line.
    ("Number" is the test of the code: an [int], a [float] or a [bool].) *)
Theorem derive_insight_total_up_to_clock ov f s m :
  exchange_flows ov = VDict f -> stablecoin ov = VDict s -> market ov = VDict m ->
  let netf := dict_get f "net_flow" VNone in
  let ratio := dict_get s "stablecoin_inflow_ratio_pct" VNone in
  let stable_net := dict_get s "stablecoin_net_flow" VNone in
  exists body,
    (forall now, derive_insight ov now = Ok (body ++ [timestamp_line now])%list)
    /\ (number netf = None -> forall now l,
          In l flow_texts \/ In l combined_texts ->
          ~ In l (body ++ [timestamp_line now]))
    /\ (number ratio = None -> forall now l,
          In l stable_texts -> ~ In l (body ++ [timestamp_line now]))
    /\ (number stable_net = None -> forall now l,
          In l combined_texts -> ~ In l (body ++ [timestamp_line now])).
Proof.
  intros Hf Hs Hm netf ratio stable_net.
  set (price := dict_get m "price_usd" (VStr "N/A")).
  exists (header_line price
          :: flow_lines netf ++ stable_lines ratio ++ combined_lines netf stable_net)%list.
  assert (Hshape : forall now,
    ((header_line price
      :: flow_lines netf ++ stable_lines ratio ++ combined_lines netf stable_net)
     ++ [timestamp_line now]
     = header_line price
       :: flow_lines netf ++ stable_lines ratio
          ++ combined_lines netf stable_net ++ [timestamp_line now])%list).
  { intros now. simpl. rewrite <- !app_assoc. reflexivity. }
  split; [|split; [|split]].
  - intros now. rewrite Hshape. apply derive_insight_shape; assumption.
  - intros Hn now l Hl. rewrite Hshape.
    destruct (in_message l price _ _ _ now (flow_lines_incl netf)
                (stable_lines_incl ratio) (combined_lines_incl netf stable_net))
      as (Hflow & _ & Hcomb).
    destruct Hl as [Hl | Hl].
    + rewrite (Hflow Hl), (flow_lines_not_a_number _ Hn). intros [].
    + rewrite (Hcomb Hl), (combined_lines_not_a_number _ _ (or_introl Hn)). intros [].
  - intros Hn now l Hl. rewrite Hshape.
    destruct (in_message l price _ _ _ now (flow_lines_incl netf)
                (stable_lines_incl ratio) (combined_lines_incl netf stable_net))
      as (_ & Hstab & _).
    rewrite (Hstab Hl), (stable_lines_not_a_number _ Hn). intros [].
  - intros Hn now l Hl. rewrite Hshape.
    destruct (in_message l price _ _ _ now (flow_lines_incl netf)
                (stable_lines_incl ratio) (combined_lines_incl netf stable_net))
      as (_ & _ & Hcomb).
    rewrite (Hcomb Hl), (combined_lines_not_a_number _ _ (or_intror Hn)). intros [].
Qed.

(** C4: with the inflow ratio a number [r], the message has the risk-off
    line and no other stablecoin line when [r >= 70], the accumulation line
    and no other when [r <= 30], and the mixed line and no other when
    [30 < r < 70]; a ratio equal to 70 is risk-off, one equal to 30 is
    accumulation. *)
Theorem stablecoin_posture_buckets ov f s m now r :
  exchange_flows ov = VDict f -> stablecoin ov = VDict s -> market ov = VDict m ->
  number (dict_get s "stablecoin_inflow_ratio_pct" VNone) = Some r ->
  exists out,
    derive_insight ov now = Ok out
    /\ (at_least r 70 ->
        In stable_risk_off out /\ ~ In stable_accumulation out /\ ~ In stable_mixed out)
    /\ (at_most r 30 ->
        In stable_accumulation out /\ ~ In stable_risk_off out /\ ~ In stable_mixed out)
    /\ (above r 30 -> below r 70 ->
        In stable_mixed out /\ ~ In stable_risk_off out /\ ~ In stable_accumulation out)
    /\ (forall q, r = Fin q -> (q == 70)%Q -> In stable_risk_off out)
    /\ (forall q, r = Fin q -> (q == 30)%Q -> In stable_accumulation out).
Proof.
  intros Hf Hs Hm Hr.
  eexists. split; [apply (derive_insight_shape ov f s m now); assumption|].
  set (netf := dict_get f "net_flow" VNone).
  set (ratio := dict_get s "stablecoin_inflow_ratio_pct" VNone) in *.
  set (stable_net := dict_get s "stablecoin_net_flow" VNone).
  set (price := dict_get m "price_usd" (VStr "N/A")).
  assert (Hin : forall l, In l stable_texts ->
    (In l (header_line price :: flow_lines netf ++ stable_lines ratio
           ++ combined_lines netf stable_net ++ [timestamp_line now])
     <-> In l (stable_lines ratio))).
  { intros l Hl.
    apply (in_message l price _ _ _ now (flow_lines_incl netf)
             (stable_lines_incl ratio) (combined_lines_incl netf stable_net)).
    exact Hl. }
  destruct (stable_lines_spec ratio r Hr) as (Hro & Hac & Hmx).
  rewrite <- (Hin stable_risk_off) in Hro by (simpl; tauto).
  rewrite <- (Hin stable_accumulation) in Hac by (simpl; tauto).
  rewrite <- (Hin stable_mixed) in Hmx by (simpl; tauto).
  pose proof (at_most_at_least_exclusive r 30 70 eq_refl) as Hex.
  pose proof (below_not_at_least r 70) as Hb.
  pose proof (above_not_at_most r 30) as Ha.
  repeat match goal with |- _ /\ _ => split end.
  - tauto.
  - tauto.
  - tauto.
  - intros q -> Hq. apply Hro. simpl. rewrite Hq. apply Qle_refl.
  - intros q -> Hq. apply Hac. simpl. rewrite Hq.
    split; [intros K; vm_compute in K; apply K; reflexivity | apply Qle_refl].
Qed.

(** C5: with the net exchange flow a number [x] and the stablecoin net flow
    a number [y], the strong-accumulation line is in the message exactly
    when both are negative, the divergence warning exactly when
    [x < 0 < y], the bearish line exactly when both are positive; in every
    other case the message has none of the three. *)
Theorem combined_heuristic_lines ov f s m now x y :
  exchange_flows ov = VDict f -> stablecoin ov = VDict s -> market ov = VDict m ->
  number (dict_get f "net_flow" VNone) = Some x ->
  number (dict_get s "stablecoin_net_flow" VNone) = Some y ->
  exists out,
    derive_insight ov now = Ok out
    /\ (In combined_accumulation out <-> below x 0 /\ below y 0)
    /\ (In combined_divergence out <-> below x 0 /\ above y 0)
    /\ (In combined_bearish out <-> above x 0 /\ above y 0)
    /\ (~ (below x 0 /\ below y 0) -> ~ (below x 0 /\ above y 0) ->
        ~ (above x 0 /\ above y 0) ->
        forall l, In l combined_texts -> ~ In l out).
Proof.
  intros Hf Hs Hm Hx Hy.
  eexists. split; [apply (derive_insight_shape ov f s m now); assumption|].
  set (netf := dict_get f "net_flow" VNone) in *.
  set (ratio := dict_get s "stablecoin_inflow_ratio_pct" VNone).
  set (stable_net := dict_get s "stablecoin_net_flow" VNone) in *.
  set (price := dict_get m "price_usd" (VStr "N/A")).
  assert (Hin : forall l, In l combined_texts ->
    (In l (header_line price :: flow_lines netf ++ stable_lines ratio
           ++ combined_lines netf stable_net ++ [timestamp_line now])
     <-> In l (combined_lines netf stable_net))).
  { intros l Hl.
    apply (in_message l price _ _ _ now (flow_lines_incl netf)
             (stable_lines_incl ratio) (combined_lines_incl netf stable_net)).
    exact Hl. }
  destruct (combined_lines_spec netf stable_net x y Hx Hy) as (Hacc & Hdiv & Hbear).
  rewrite <- (Hin combined_accumulation) in Hacc by (simpl; tauto).
  rewrite <- (Hin combined_divergence) in Hdiv by (simpl; tauto).
  rewrite <- (Hin combined_bearish) in Hbear by (simpl; tauto).
  repeat match goal with |- _ /\ _ => split end; try assumption.
  intros N1 N2 N3 l Hl. simpl in Hl.
  destruct Hl as [<- | [<- | [<- | []]]]; tauto.
Qed.

End InsightClaims.

(** C3 as stated fails: one second apart, the same overview gives two
    different messages, whatever the runtime prints. *)
Lemma insight_changes_with_the_clock :
  ~ exists R : PyRuntime,
      @derive_insight R SAMPLE_OVERVIEW new_year_2025
      = @derive_insight R SAMPLE_OVERVIEW one_second_later.
Proof.
  intros [R H].
  rewrite !(derive_insight_shape SAMPLE_OVERVIEW _ _ _ _ eq_refl eq_refl eq_refl) in H.
  injection H as H.
  repeat (apply app_inv_head in H).
  discriminate H.
Qed.

(** ** The alerts *)

Section Alerts.
Context {R : PyRuntime}.

Lemma big_amount_spec v :
  big_amount v = true <-> exists a, number v = Some a /\ at_least a BIG_TX_THRESHOLD.
Proof.
  unfold big_amount. destruct (number v) as [a|].
  - rewrite num_ge_at_least. split; [eauto|].
    intros (a' & E & H). injection E as <-. exact H.
  - split; [discriminate|]. intros (a & E & _). discriminate.
Qed.

(** [short_addr] returns on an address. *)
Lemma short_addr_address v : is_address v = true -> exists r, short_addr v = Ok r.
Proof.
  destruct v; try discriminate; intros _; unfold short_addr.
  - simpl. eauto.
  - destruct (negb (truthy (VStr s))); [eauto|]. simpl.
    destruct (String.length s <? 10)%nat; eauto.
Qed.

(** The alert of a transfer is built, and starts as a whale alert does. *)
Lemma whale_alert_transfer t amt :
  is_transfer t = true -> exists line, whale_alert t amt = Ok line.
Proof.
  destruct t; try discriminate. simpl. intros H.
  apply andb_prop in H. destruct H as [Hfrom Hto].
  destruct (short_addr_address _ Hfrom) as [a Ha].
  destruct (short_addr_address _ Hto) as [b Hb].
  unfold whale_alert. simpl. rewrite Ha. simpl. rewrite Hb. simpl. eauto.
Qed.

Lemma whale_alert_lead t amt line : whale_alert t amt = Ok line -> lead line = whale_lead.
Proof.
  unfold whale_alert. destruct t; try discriminate. simpl.
  destruct (short_addr _); [|discriminate]. simpl.
  destruct (short_addr _); [|discriminate]. simpl.
  intros H. injection H as <-. reflexivity.
Qed.

Lemma whale_alerts_cons t ts :
  whale_alerts (t :: ts) =
    (amt <- py_get t "amount" (VInt 0) ;;
     here <- (if big_amount amt
              then line <- whale_alert t amt ;; Ok [line]
              else Ok []) ;;
     rest <- whale_alerts ts ;;
     Ok (here ++ rest)%list)%res.
Proof. reflexivity. Qed.

Lemma transfer_alerts_returns t :
  is_transfer t = true -> exists here, transfer_alerts t = Ok here.
Proof.
  intros Ht. unfold transfer_alerts. destruct (big_amount (amount_of t)); [|eauto].
  destruct (whale_alert_transfer t (amount_of t) Ht) as [line ->]. simpl. eauto.
Qed.

Lemma whale_alerts_step t ts :
  is_transfer t = true ->
  whale_alerts (t :: ts) =
    (here <- transfer_alerts t ;; rest <- whale_alerts ts ;; Ok (here ++ rest)%list)%res.
Proof. destruct t; try discriminate. intros _. reflexivity. Qed.

(** The loop returns on a list of transfers, one alert a qualifying
    transfer, in the order of the list. *)
Lemma whale_alerts_transfers ts :
  forallb is_transfer ts = true ->
  exists ws,
    whale_alerts ts = Ok ws
    /\ Forall2 (fun t line => whale_alert t (amount_of t) = Ok line) (qualifying ts) ws.
Proof.
  induction ts as [|t ts IH]; intros H.
  - exists []. split; [reflexivity | constructor].
  - simpl in H. apply andb_prop in H. destruct H as [Ht Hts].
    destruct (IH Hts) as (ws & Hws & Hall).
    rewrite (whale_alerts_step t ts Ht), Hws.
    unfold qualifying, transfer_alerts in *. simpl.
    destruct (big_amount (amount_of t)).
    + destruct (whale_alert_transfer t (amount_of t) Ht) as [line Hline].
      rewrite Hline. simpl. exists (line :: ws). split; [reflexivity|].
      constructor; assumption.
    + simpl. exists ws. split; [reflexivity | assumption].
Qed.

(** The loop over a list split at one transfer. *)
Lemma whale_alerts_app pre post :
  forallb is_transfer pre = true ->
  whale_alerts (pre ++ post) =
    (a <- whale_alerts pre ;; b <- whale_alerts post ;; Ok (a ++ b)%list)%res.
Proof.
  induction pre as [|t pre IH]; intros H.
  - simpl. destruct (whale_alerts post); reflexivity.
  - simpl in H. apply andb_prop in H. destruct H as [Ht Hpre].
    rewrite <- app_comm_cons, !(whale_alerts_step _ _ Ht), (IH Hpre).
    destruct (transfer_alerts t); [|reflexivity]. simpl.
    destruct (whale_alerts pre); [|reflexivity]. simpl.
    destruct (whale_alerts post); [|reflexivity]. simpl.
    rewrite app_assoc. reflexivity.
Qed.

Lemma whale_alerts_leads ts ws :
  whale_alerts ts = Ok ws -> Forall (fun l => lead l = whale_lead) ws.
Proof.
  revert ws. induction ts as [|t ts IH]; intros ws H.
  - injection H as <-. constructor.
  - rewrite whale_alerts_cons in H.
    destruct (py_get t "amount" (VInt 0)) as [amt|]; [|discriminate]. simpl in H.
    destruct (whale_alerts ts) as [rest|] eqn:Hrest.
    + specialize (IH rest eq_refl).
      destruct (big_amount amt).
      * destruct (whale_alert t amt) as [line|] eqn:Hline; [|discriminate].
        simpl in H. injection H as <-. constructor; [|assumption].
        eapply whale_alert_lead; eassumption.
      * simpl in H. injection H as <-. assumption.
    + destruct (big_amount amt); [|discriminate].
      destruct (whale_alert t amt); discriminate.
Qed.

(** On an overview whose exchange-flows section is an object and whose
    whale section is a list, the alerts are the flow alerts, then the
    alerts of the loop. *)
Lemma evaluate_alerts_shape ov f ts :
  exchange_flows ov = VDict f -> whale_transfers ov = VList ts ->
  evaluate_alerts ov =
    (ws <- whale_alerts ts ;; Ok (flow_alerts (dict_get f "net_flow" (VInt 0)) ++ ws)%list)%res.
Proof. intros Hf Hw. unfold evaluate_alerts. rewrite Hf, Hw. reflexivity. Qed.


Lemma flow_alerts_spec netf x :
  number netf = Some x ->
  (In (accumulation_alert netf) (flow_alerts netf) <-> at_most x ACCUM_THRESHOLD)
  /\ (In (distribution_alert netf) (flow_alerts netf) <-> at_least x DIST_THRESHOLD).
Proof.
  intros Hx. unfold flow_alerts. rewrite Hx.
  pose proof (num_le_at_most x ACCUM_THRESHOLD) as Hle.
  pose proof (num_ge_at_least x DIST_THRESHOLD) as Hge.
  assert (Hneq : distribution_alert netf <> accumulation_alert netf)
    by (apply lead_neq; discriminate).
  destruct (num_le x ACCUM_THRESHOLD); destruct (num_ge x DIST_THRESHOLD); simpl;
    repeat match goal with
           | H : true = true <-> _ |- _ => apply proj1 in H; specialize (H eq_refl)
           | H : false = true <-> _ |- _ =>
               apply (fun h => bool_iff_false false _ h eq_refl) in H
           end;
    split; split; intros; try tauto;
    repeat match goal with H : _ \/ _ |- _ => destruct H end;
    try contradiction; try congruence; exfalso; auto.
Qed.

(** A flow alert is not an alert of the loop. *)
Lemma flow_alert_not_whale netf ts ws :
  whale_alerts ts = Ok ws ->
  ~ In (accumulation_alert netf) ws /\ ~ In (distribution_alert netf) ws.
Proof.
  intros H. apply whale_alerts_leads in H. rewrite Forall_forall in H.
  split; intros K; apply H in K; discriminate K.
Qed.

End Alerts.

Section AlertClaims.
Context {R : PyRuntime}.

(** C6: on an overview whose exchange-flows section is an object with a
    net flow that is a number [x] and whose whale section is a list of
    transfers, the alerts are built; the accumulation alert is among them
    exactly when [x <= -50,000,000] and the distribution alert exactly when
    [x >= 50,000,000] (for an integer net flow [z]: [z <= -50000000],
    [50000000 <= z]); and each transfer of the list adds, at its place, its
    own alert when its amount is a number [>= 10,000,000] and nothing
    otherwise (for an integer amount [z]: one alert when [10000000 <= z],
    none when [z < 10000000]). *)
Theorem alert_thresholds_closed ov f ts x :
  exchange_flows ov = VDict f -> whale_transfers ov = VList ts ->
  forallb is_transfer ts = true ->
  let netf := dict_get f "net_flow" (VInt 0) in
  number netf = Some x ->
  exists alerts,
    evaluate_alerts ov = Ok alerts
    /\ (In (accumulation_alert netf) alerts <-> at_most x (-50000000))
    /\ (In (distribution_alert netf) alerts <-> at_least x 50000000)
    /\ (forall z, x = Fin (inject_Z z) ->
        (In (accumulation_alert netf) alerts <-> z <= -50000000)
        /\ (In (distribution_alert netf) alerts <-> 50000000 <= z))
    /\ (forall pre t post, ts = (pre ++ t :: post)%list ->
        exists a here b,
          whale_alerts pre = Ok a /\ whale_alerts post = Ok b
          /\ alerts = (flow_alerts netf ++ a ++ here ++ b)%list
          /\ ((exists amt, number (amount_of t) = Some amt /\ at_least amt 10000000) ->
              exists line, whale_alert t (amount_of t) = Ok line /\ here = [line])
          /\ ((forall amt, number (amount_of t) = Some amt -> ~ at_least amt 10000000) ->
              here = [])
          /\ (forall z, amount_of t = VInt z ->
              (10000000 <= z -> exists line, here = [line])
              /\ (z < 10000000 -> here = []))).
Proof.
  intros Hf Hw Hts netf Hx.
  destruct (whale_alerts_transfers ts Hts) as (ws & Hws & _).
  exists (flow_alerts netf ++ ws)%list.
  split; [rewrite (evaluate_alerts_shape ov f ts Hf Hw), Hws; reflexivity|].
  destruct (flow_alerts_spec netf x Hx) as [Hacc Hdist].
  destruct (flow_alert_not_whale netf ts ws Hws) as [Nacc Ndist].
  assert (Hacc' : In (accumulation_alert netf) (flow_alerts netf ++ ws)
                  <-> at_most x (-50000000))
    by (rewrite in_app_iff; unfold ACCUM_THRESHOLD in Hacc; tauto).
  assert (Hdist' : In (distribution_alert netf) (flow_alerts netf ++ ws)
                   <-> at_least x 50000000)
    by (rewrite in_app_iff; unfold DIST_THRESHOLD in Hdist; tauto).
  split; [exact Hacc'|]. split; [exact Hdist'|]. split.
  - intros z ->. rewrite Hacc', Hdist', at_most_int, at_least_int. tauto.
  - intros pre t post ->.
    rewrite forallb_app in Hts. apply andb_prop in Hts. destruct Hts as [Hpre Htp].
    simpl in Htp. apply andb_prop in Htp. destruct Htp as [Ht Hpost].
    destruct (whale_alerts_transfers pre Hpre) as (a & Ha & _).
    destruct (whale_alerts_transfers post Hpost) as (b & Hb & _).
    destruct (transfer_alerts_returns t Ht) as (here & Hhere).
    exists a, here, b.
    rewrite (whale_alerts_app pre (t :: post) Hpre), Ha,
      (whale_alerts_step t post Ht), Hhere, Hb in Hws.
    simpl in Hws. injection Hws as <-.
    split; [exact Ha|]. split; [exact Hb|]. split; [reflexivity|].
    unfold transfer_alerts in Hhere.
    pose proof (big_amount_spec (amount_of t)) as Hbig.
    unfold BIG_TX_THRESHOLD in Hbig.
    destruct (big_amount (amount_of t)).
    + destruct (whale_alert t (amount_of t)) as [line|]; [|discriminate].
      simpl in Hhere. injection Hhere as <-.
      split; [eauto|]. split.
      * intros Hno. destruct Hbig as [Hbig _].
        destruct (Hbig eq_refl) as (amt & E & Hge). exfalso. exact (Hno amt E Hge).
      * intros z Hz. split; [eauto|]. intros Hlt.
        destruct Hbig as [Hbig _]. destruct (Hbig eq_refl) as (amt & E & Hge).
        rewrite Hz in E. injection E as <-. exfalso.
        apply (proj1 (at_least_int z 10000000)) in Hge. lia.
    + injection Hhere as <-.
      split; [|split; [reflexivity|]].
      * intros Hyes. apply Hbig in Hyes. discriminate.
      * intros z Hz. split; [|reflexivity]. intros Hge. exfalso.
        assert (false = true); [|discriminate].
        apply Hbig. exists (Fin (inject_Z z)). rewrite Hz. split; [reflexivity|].
        apply at_least_int. exact Hge.
Qed.


End AlertClaims.

(** ** The upstream client and the alert cycle *)

Section Client.
Context {O : Outside}.

(** With no base URL [try_get] returns [None] and does nothing. *)
Lemma try_get_no_base_url (cfg : config) (path : string) (w : world) :
  env_truthy (DASHBOARD_API_URL cfg) = false -> try_get cfg path w = (Ok VNone, w).
Proof.
  unfold try_get, env_truthy.
  destruct (DASHBOARD_API_URL cfg) as [[|c s]|]; try reflexivity. discriminate.
Qed.

(** The guarded request of [try_get], in every case of the library calls. *)
Lemma guarded_request (cfg : config) (url : string) (w : world) :
  let c := io_catch
      (io_bind (http_get url (headers cfg) 8) (fun resp =>
         io_bind (io_lift (raise_for_status resp)) (fun _ =>
           io_lift (response_json resp))))
      (fun e => io_bind (emit (LoggedDebug url e)) (fun _ => io_ret VNone)) in
  (exists v w', c w = (Ok v, w'))
  /\ match requests_get url (headers cfg) 8 (outside w) with
     | (Raise _, _) => fst (c w) = Ok VNone
     | (Ok resp, _) =>
         match raise_for_status resp, response_json resp with
         | Raise _, _ => fst (c w) = Ok VNone
         | Ok _, Raise _ => fst (c w) = Ok VNone
         | Ok _, Ok v => fst (c w) = Ok v
         end
     end.
Proof.
  unfold io_catch, io_bind, http_get, io_lift, emit, io_ret. simpl.
  destruct (requests_get url (headers cfg) 8 (outside w)) as [[resp|e] n]; simpl.
  - destruct (raise_for_status resp) as [u|e]; simpl.
    + destruct (response_json resp) as [v|e]; simpl;
        (split; [eexists; eexists; reflexivity | reflexivity]).
    + split; [eexists; eexists; reflexivity | reflexivity].
  - split; [eexists; eexists; reflexivity | reflexivity].
Qed.

(** [try_get] returns a value in every world. *)
Lemma try_get_returns (cfg : config) (path : string) (w : world) :
  exists v w', try_get cfg path w = (Ok v, w').
Proof.
  unfold try_get.
  destruct (DASHBOARD_API_URL cfg) as [[|c s]|];
    try (eexists; eexists; reflexivity).
  apply guarded_request.
Qed.

(** [fetch_dashboard_overview] makes the four calls in turn and returns the
    overview built from what they returned. *)
Lemma fetch_dashboard_overview_runs (cfg : config) (w : world) :
  exists m f s wh w1 w2 w3 w4,
    try_get cfg "/api/market" w = (Ok m, w1)
    /\ try_get cfg "/api/exchange_flows" w1 = (Ok f, w2)
    /\ try_get cfg "/api/stablecoin" w2 = (Ok s, w3)
    /\ try_get cfg "/api/whale_transfers" w3 = (Ok wh, w4)
    /\ fetch_dashboard_overview cfg w = (Ok (build_overview m f s wh), w4).
Proof.
  destruct (try_get_returns cfg "/api/market" w) as (m & w1 & H1).
  destruct (try_get_returns cfg "/api/exchange_flows" w1) as (f & w2 & H2).
  destruct (try_get_returns cfg "/api/stablecoin" w2) as (s & w3 & H3).
  destruct (try_get_returns cfg "/api/whale_transfers" w3) as (wh & w4 & H4).
  exists m, f, s, wh, w1, w2, w3, w4.
  repeat (split; [assumption|]).
  unfold fetch_dashboard_overview, io_bind. rewrite H1, H2, H3, H4. reflexivity.
Qed.

(** C8, amended: [try_get] returns a value in every world, it never raises.
    With no base URL configured it returns [None] and does nothing;
    otherwise it returns [None] when the request raises, when
    [raise_for_status] raises (which the library does for an error status,
    4xx or 5xx, not for every status outside 2xx) and when the body does not
    decode, and in the remaining case it returns the decoded JSON value. *)
Theorem try_get_never_raises (cfg : config) (path : string) (w : world) :
  (exists v w', try_get cfg path w = (Ok v, w'))
  /\ (env_truthy (DASHBOARD_API_URL cfg) = false -> try_get cfg path w = (Ok VNone, w))
  /\ (forall base, DASHBOARD_API_URL cfg = Some base -> base <> "" ->
      match requests_get (rstrip_slash base ++ path) (headers cfg) 8 (outside w) with
      | (Raise _, _) => fst (try_get cfg path w) = Ok VNone
      | (Ok resp, _) =>
          match raise_for_status resp, response_json resp with
          | Raise _, _ => fst (try_get cfg path w) = Ok VNone
          | Ok _, Raise _ => fst (try_get cfg path w) = Ok VNone
          | Ok _, Ok v => fst (try_get cfg path w) = Ok v
          end
      end).
Proof.
  split; [apply try_get_returns|]. split; [apply try_get_no_base_url|].
  intros base E Hne. unfold try_get. rewrite E.
  destruct base as [|c s]; [contradiction|].
  apply guarded_request.
Qed.

End Client.

(** C8 as stated fails: an answer with the status 300, which is not 2xx and
    which [raise_for_status] lets pass, and with a JSON body makes [try_get]
    return the body, not [None]. *)
Lemma non_2xx_answer_is_returned :
  fst (@try_get scripted_outside with_admin "/api/market" multiple_choices)
  = Ok (VDict [("symbol", VStr "ETH")])
  /\ hd_error (pending (outside multiple_choices))
     = Some (Ok {| status_code := 300; body := Some (VDict [("symbol", VStr "ETH")]) |})
  /\ ((200 <=? 300) && (300 <? 300))%bool = false.
Proof. repeat split. Qed.

(** With the library's [raise_for_status], an answer with an error status
    gives [None], and an answer with any other status and a JSON body gives
    the body. *)
Lemma scripted_status_rule (cfg : config) base path status v (n : scripted) evs :
  DASHBOARD_API_URL cfg = Some base -> base <> "" ->
  pending n = [Ok {| status_code := status; body := Some v |}] ->
  fst (@try_get scripted_outside cfg path (@Build_world scripted_outside n evs))
  = Ok (if (400 <=? status) && (status <? 600) then VNone else v).
Proof.
  intros Hb Hne Hp. unfold try_get. rewrite Hb.
  destruct base as [|c base]; [contradiction|].
  unfold io_catch, io_bind, http_get, io_lift, emit, io_ret. simpl.
  unfold scripted_get. rewrite Hp. simpl.
  destruct ((400 <=? status) && (status <? 600))%bool; reflexivity.
Qed.

Section Cycle.
Context {R : PyRuntime} {O : Outside}.

(** C10: with [ADMIN_CHAT_ID] not set (or empty) the alert cycle returns
    at once and leaves the world as it was: no request is made and no
    message is sent, whatever the upstream would answer. *)
Theorem no_admin_no_cycle (cfg : config) (w : world) :
  env_truthy (ADMIN_CHAT_ID cfg) = false ->
  check_and_send_alert cfg w = (Ok tt, w).
Proof.
  unfold check_and_send_alert, env_truthy.
  destruct (ADMIN_CHAT_ID cfg) as [[|c s]|]; try reflexivity.
  discriminate.
Qed.

(** C9: when the four calls fail the overview is [SAMPLE_OVERVIEW], and its
    alerts are two: the accumulation alert for the net flow -132,985,346,
    then the whale alert for the transfer of 39,365,167.96; the transfer of
    1,851,370.43 does not meet the threshold. *)
Theorem unreachable_upstream_alerts (cfg : config) (w w1 w2 w3 w4 : world) :
  build_overview VNone VNone VNone VNone = SAMPLE_OVERVIEW
  /\ (try_get cfg "/api/market" w = (Ok VNone, w1) ->
      try_get cfg "/api/exchange_flows" w1 = (Ok VNone, w2) ->
      try_get cfg "/api/stablecoin" w2 = (Ok VNone, w3) ->
      try_get cfg "/api/whale_transfers" w3 = (Ok VNone, w4) ->
      fetch_dashboard_overview cfg w = (Ok SAMPLE_OVERVIEW, w4))
  /\ evaluate_alerts SAMPLE_OVERVIEW =
       Ok [accumulation_alert (VInt (-132985346));
           "🐋 Whale transfer: " ++ fmt_usd (VFloat f_39365167_96)
           ++ " USDT from 0x17dc...403a to 0xaa8b...3efb"]
  /\ at_most (Fin (inject_Z (-132985346))) ACCUM_THRESHOLD
  /\ big_amount (VFloat f_39365167_96) = true
  /\ big_amount (VFloat f_1851370_43) = false.
Proof.
  split; [reflexivity|]. split.
  { intros H1 H2 H3 H4. unfold fetch_dashboard_overview, io_bind.
    rewrite H1, H2, H3, H4. reflexivity. }
  split; [reflexivity|].
  split; [apply at_most_int; unfold ACCUM_THRESHOLD; lia|]. split; reflexivity.
Qed.

(** Without a base URL every call fails, and the overview is the sample. *)
Lemma fetch_without_base_url (cfg : config) (w : world) :
  env_truthy (DASHBOARD_API_URL cfg) = false ->
  fetch_dashboard_overview cfg w = (Ok SAMPLE_OVERVIEW, w).
Proof.
  intros H. unfold fetch_dashboard_overview, io_bind.
  rewrite !(try_get_no_base_url cfg _ w H). reflexivity.
Qed.

End Cycle.

(** ** The theorems at concrete inputs *)

Lemma derive_insight_total_up_to_clock_witness :
  exists body,
    (forall now,
       @derive_insight demo_runtime sparse_overview now
       = Ok (body ++ [timestamp_line now])%list)
    /\ (forall now l,
          In l flow_texts \/ In l combined_texts ->
          ~ In l (body ++ [timestamp_line now]))
    /\ (forall now l, In l stable_texts -> ~ In l (body ++ [timestamp_line now])).
Proof.
  destruct (@derive_insight_total_up_to_clock demo_runtime sparse_overview
              [("net_flow", VStr "n/a")] [("mode", VStr "unknown")]
              [("symbol", VStr "ETH")] eq_refl eq_refl eq_refl)
    as (body & Hbody & Hflow & Hstable & _).
  exists body. split; [exact Hbody|]. split.
  - exact (Hflow eq_refl).
  - exact (Hstable eq_refl).
Defined.

Lemma stablecoin_posture_buckets_witness :
  exists out,
    @derive_insight demo_runtime SAMPLE_OVERVIEW new_year_2025 = Ok out
    /\ In stable_risk_off out /\ ~ In stable_accumulation out /\ ~ In stable_mixed out.
Proof.
  destruct (@stablecoin_posture_buckets demo_runtime SAMPLE_OVERVIEW _ _ _
              new_year_2025 (float_value f_100_0) eq_refl eq_refl eq_refl eq_refl)
    as (out & Hout & Hro & _).
  exists out. split; [exact Hout|]. apply Hro. vm_compute. discriminate.
Defined.

Lemma combined_heuristic_lines_witness :
  exists out,
    @derive_insight demo_runtime SAMPLE_OVERVIEW new_year_2025 = Ok out
    /\ In combined_accumulation out.
Proof.
  destruct (@combined_heuristic_lines demo_runtime SAMPLE_OVERVIEW _ _ _
              new_year_2025 (Fin (inject_Z (-132985346))) (Fin (inject_Z (-20000000)))
              eq_refl eq_refl eq_refl eq_refl eq_refl)
    as (out & Hout & Hacc & _).
  exists out. split; [exact Hout|]. apply Hacc. split; reflexivity.
Defined.

Lemma alert_thresholds_closed_witness :
  exists alerts,
    @evaluate_alerts demo_runtime SAMPLE_OVERVIEW = Ok alerts
    /\ In (@accumulation_alert demo_runtime (VInt (-132985346))) alerts
    /\ ~ In (@distribution_alert demo_runtime (VInt (-132985346))) alerts.
Proof.
  destruct (@alert_thresholds_closed demo_runtime SAMPLE_OVERVIEW _ _
              (Fin (inject_Z (-132985346))) eq_refl eq_refl eq_refl eq_refl)
    as (alerts & Halerts & Hacc & Hdist & _).
  exists alerts. split; [exact Halerts|]. split.
  - apply Hacc. vm_compute. discriminate.
  - intros H. apply Hdist in H. vm_compute in H. apply H. reflexivity.
Defined.


Lemma no_admin_no_cycle_witness :
  @check_and_send_alert demo_runtime scripted_outside no_admin answering
  = (Ok tt, answering).
Proof.
  exact (@no_admin_no_cycle demo_runtime scripted_outside no_admin answering eq_refl).
Defined.

(** ** Runs *)

(** The cycle with an operator channel and an unreachable upstream: four
    requests, four debug entries, then the call of [send_message] with the
    two alerts of the sample data, never awaited: no message. *)
Example cycle_on_unreachable_upstream :
  fst (@check_and_send_alert demo_runtime scripted_outside with_admin unreachable) = Ok tt
  /\ last (events (snd (@check_and_send_alert demo_runtime scripted_outside
                          with_admin unreachable)))
          (Replied "")
     = Unawaited 42
         ("🚨 Strong accumulation: Net Flow = $-132,985,346.00" ++ nl
          ++ "🐋 Whale transfer: $39,365,167.96 USDT from 0x17dc...403a to 0xaa8b...3efb")
  /\ messages (events (snd (@check_and_send_alert demo_runtime scripted_outside
                              with_admin unreachable))) = [].
Proof. repeat split. Qed.

(** The closed boundaries of the flow alerts. *)
Example accumulation_alert_at_boundary :
  @evaluate_alerts demo_runtime (overview_of (VInt (-50000000)) VNone VNone [])
  = Ok ["🚨 Strong accumulation: Net Flow = $-50,000,000.00"].
Proof. reflexivity. Qed.

Example no_flow_alert_above_boundary :
  @evaluate_alerts demo_runtime (overview_of (VInt (-49999999)) VNone VNone []) = Ok [].
Proof. reflexivity. Qed.

Example distribution_alert_at_boundary :
  @evaluate_alerts demo_runtime (overview_of (VInt 50000000) VNone VNone [])
  = Ok ["⚠ Strong distribution: Net Flow = $50,000,000.00"].
Proof. reflexivity. Qed.

(** The closed boundary of the whale alert. *)
Example whale_alert_at_boundary :
  @evaluate_alerts demo_runtime
     (overview_of (VInt 0) VNone VNone
        [transfer_of (VInt 9999999); transfer_of (VInt 10000000)])
  = Ok ["🐋 Whale transfer: $10,000,000.00 USDT from 0xc0ba...1a09 to 0x28c6...1d60"].
Proof. reflexivity. Qed.

(** The boundaries of the stablecoin rule. *)
Example ratio_70_is_risk_off :
  stable_lines (VInt 70) = [stable_risk_off]
  /\ stable_lines (VInt 30) = [stable_accumulation]
  /\ stable_lines (VInt 31) = [stable_mixed]
  /\ stable_lines (VInt 69) = [stable_mixed].
Proof. repeat split; reflexivity. Qed.

(** The four cases of the combined rule named in the specification. *)
Example combined_rule_cases :
  combined_lines (VInt (-60000000)) (VInt (-10000000)) = [combined_accumulation]
  /\ combined_lines (VInt (-60000000)) (VInt 10000000) = [combined_divergence]
  /\ combined_lines (VInt 60000000) (VInt 10000000) = [combined_bearish]
  /\ combined_lines (VInt 10) (VInt (-10)) = []
  /\ combined_lines (VInt 0) (VInt 0) = [].
Proof. repeat split; reflexivity. Qed.

(** A [bool] passes the test of the code for a number: it counts as 1 or 0. *)
Example bool_counts_as_number :
  flow_lines (VBool true) = [flow_distribution]
  /\ flow_lines (VBool false) = [flow_neutral].
Proof. split; reflexivity. Qed.

(** A section that is not an object makes the insight raise. *)
Example insight_raises_on_list_section :
  @derive_insight demo_runtime
     {| market := market SAMPLE_OVERVIEW;
        exchange_flows := exchange_flows SAMPLE_OVERVIEW;
        stablecoin := VList [VInt 1];
        whale_transfers := VList [] |} new_year_2025
  = Raise AttributeError.
Proof. reflexivity. Qed.

(** The fetch answered by the upstream is the live data. *)
Example fetch_on_answering_upstream :
  fst (@fetch_dashboard_overview scripted_outside with_admin answering)
  = Ok SAMPLE_OVERVIEW.
Proof. reflexivity. Qed.

(** The fetch on an unreachable upstream is the sample data. *)
Example fetch_on_unreachable_upstream :
  fst (@fetch_dashboard_overview scripted_outside with_admin unreachable)
  = Ok SAMPLE_OVERVIEW.
Proof. reflexivity. Qed.

(** * Further properties of the code *)

(** ** The base URL and the requests *)

Lemma append_assoc_string (a b c : string) : (a ++ b) ++ c = a ++ (b ++ c).
Proof. induction a as [|x a IH]; simpl; [|rewrite IH]; reflexivity. Qed.

Lemma rstrip_slash_slashes k : rstrip_slash (slashes k) = "".
Proof. induction k as [|k IH]; simpl; [|rewrite IH]; reflexivity. Qed.

Lemma rstrip_slash_append_slashes s k : rstrip_slash (s ++ slashes k) = rstrip_slash s.
Proof.
  induction s as [|c s IH]; simpl.
  - apply rstrip_slash_slashes.
  - rewrite IH. reflexivity.
Qed.

(** X1: [rstrip_slash] removes the slashes at the end and nothing else: the
    text is the result followed by slashes only, and the result does not end
    with a slash. *)
Theorem rstrip_slash_removes_trailing_slashes (s : string) :
  (exists k, s = rstrip_slash s ++ slashes k)
  /\ (forall t, rstrip_slash s <> t ++ "/").
Proof.
  split.
  - induction s as [|c s [k IH]]; [exists 0%nat; reflexivity|].
    simpl. destruct (Ascii.eqb_spec c "/") as [-> | Hc]; simpl.
    + destruct (String.eqb_spec (rstrip_slash s) "") as [E | E].
      * exists (S k). rewrite E in IH. simpl in *. rewrite <- IH. reflexivity.
      * exists k. simpl. rewrite <- IH. reflexivity.
    + exists k. simpl. rewrite <- IH. reflexivity.
  - induction s as [|c s IH]; intros t.
    + destruct t; discriminate.
    + simpl.
      destruct (Ascii.eqb c "/" && String.eqb (rstrip_slash s) "")%bool eqn:E.
      * destruct t; discriminate.
      * destruct t as [|c' t]; simpl; intros K.
        -- injection K; intros K2 K1. subst c. rewrite K2 in E. discriminate.
        -- injection K; intros K2 K1. exact (IH t K2).
Qed.

Section Requests.
Context {O : Outside}.

Lemma headers_same_key (cfg cfg' : config) :
  API_KEY cfg' = API_KEY cfg -> headers cfg' = headers cfg.
Proof. unfold headers. intros ->. reflexivity. Qed.

(** X2: slashes at the end of the configured base URL make no difference
    to [try_get]: the same request, the same result. *)
Theorem try_get_ignores_trailing_slashes (cfg cfg' : config) base k path (w : world) :
  base <> "" ->
  DASHBOARD_API_URL cfg = Some base ->
  DASHBOARD_API_URL cfg' = Some (base ++ slashes k) ->
  API_KEY cfg' = API_KEY cfg ->
  try_get cfg' path w = try_get cfg path w.
Proof.
  intros Hne Hb Hb' Hk. unfold try_get.
  rewrite Hb, Hb', (headers_same_key cfg cfg' Hk), rstrip_slash_append_slashes.
  destruct base as [|c base]; [contradiction | reflexivity].
Qed.

Lemma requested_urls_app evs evs' :
  requested_urls (evs ++ evs') = (requested_urls evs ++ requested_urls evs')%list.
Proof.
  induction evs as [|ev evs IH]; [reflexivity|].
  destruct ev; simpl; rewrite IH; reflexivity.
Qed.

Lemma messages_app evs evs' :
  messages (evs ++ evs') = (messages evs ++ messages evs')%list.
Proof.
  induction evs as [|ev evs IH]; [reflexivity|].
  destruct ev; simpl; rewrite IH; reflexivity.
Qed.

(** What one call of [try_get] with a base URL adds to the events. *)
Lemma try_get_trace (cfg : config) path (w : world) base :
  DASHBOARD_API_URL cfg = Some base -> base <> "" ->
  exists v w',
    try_get cfg path w = (Ok v, w')
    /\ outside w' = snd (requests_get (rstrip_slash base ++ path) (headers cfg) 8 (outside w))
    /\ (events w' = (events w ++ [Requested (rstrip_slash base ++ path) (headers cfg)])%list
        \/ (v = VNone
            /\ exists e,
                 events w' = (events w ++ [Requested (rstrip_slash base ++ path) (headers cfg);
                                           LoggedDebug (rstrip_slash base ++ path) e])%list)).
Proof.
  intros Hb Hne. unfold try_get. rewrite Hb.
  destruct base as [|c base]; [contradiction|].
  set (url := rstrip_slash (String c base) ++ path).
  unfold io_catch, io_bind, http_get, io_lift, emit, io_ret. simpl.
  destruct (requests_get url (headers cfg) 8 (outside w)) as [[resp|e] n]; simpl.
  - destruct (raise_for_status resp) as [u|e]; simpl.
    + destruct (response_json resp) as [v|e]; simpl.
      * eexists; eexists. split; [reflexivity|]. split; [reflexivity|]. left. reflexivity.
      * eexists; eexists. split; [reflexivity|]. split; [reflexivity|]. right.
        split; [reflexivity|]. exists e. rewrite <- app_assoc. reflexivity.
    + eexists; eexists. split; [reflexivity|]. split; [reflexivity|]. right.
      split; [reflexivity|]. exists e. rewrite <- app_assoc. reflexivity.
  - eexists; eexists. split; [reflexivity|]. split; [reflexivity|]. right.
    split; [reflexivity|]. exists e. rewrite <- app_assoc. reflexivity.
Qed.

(** X3: with a base URL configured, [try_get] makes exactly one request, to
    the base URL without its trailing slashes followed by the path and with
    the headers of [headers]; it does not retry.  It logs one debug entry
    when, and only when, it returns [None] for a failure, and sends no
    message. *)
Theorem try_get_one_request (cfg : config) path (w : world) base :
  DASHBOARD_API_URL cfg = Some base -> base <> "" ->
  exists v w',
    try_get cfg path w = (Ok v, w')
    /\ outside w' = snd (requests_get (rstrip_slash base ++ path) (headers cfg) 8 (outside w))
    /\ requested_urls (events w') = (requested_urls (events w) ++ [(rstrip_slash base ++ path)%string])%list
    /\ messages (events w') = messages (events w)
    /\ (events w' = (events w ++ [Requested (rstrip_slash base ++ path) (headers cfg)])%list
        \/ (v = VNone
            /\ exists e,
                 events w' = (events w ++ [Requested (rstrip_slash base ++ path) (headers cfg);
                                           LoggedDebug (rstrip_slash base ++ path) e])%list)).
Proof.
  intros Hb Hne.
  destruct (try_get_trace cfg path w base Hb Hne) as (v & w' & Hrun & Hout & Hev).
  exists v, w'. split; [exact Hrun|]. split; [exact Hout|].
  destruct Hev as [E | [Hv [e E]]].
  - split; [rewrite E, requested_urls_app; reflexivity|].
    split; [rewrite E, messages_app; simpl; apply app_nil_r|]. left. exact E.
  - split; [rewrite E, requested_urls_app; reflexivity|].
    split; [rewrite E, messages_app; simpl; apply app_nil_r|]. right. eauto.
Qed.

(** One call of [try_get] adds its URL to the requested ones and no message. *)
Lemma try_get_requests (cfg : config) path (w : world) base :
  DASHBOARD_API_URL cfg = Some base -> base <> "" ->
  exists v w',
    try_get cfg path w = (Ok v, w')
    /\ requested_urls (events w') = (requested_urls (events w) ++ [(rstrip_slash base ++ path)%string])%list
    /\ messages (events w') = messages (events w).
Proof.
  intros Hb Hne.
  destruct (try_get_trace cfg path w base Hb Hne) as (v & w' & Hrun & _ & Hev).
  exists v, w'. split; [exact Hrun|].
  destruct Hev as [E | [_ [e E]]]; rewrite E, requested_urls_app, messages_app;
    simpl; rewrite app_nil_r; split; reflexivity.
Qed.

(** X5: with a base URL configured, [fetch_dashboard_overview] returns an
    overview after exactly four requests, in the order market, exchange
    flows, stablecoin, whale transfers, whatever the answers; it sends no
    message. *)
Theorem fetch_makes_four_requests (cfg : config) (w : world) base :
  DASHBOARD_API_URL cfg = Some base -> base <> "" ->
  exists ov w',
    fetch_dashboard_overview cfg w = (Ok ov, w')
    /\ requested_urls (events w') =
         (requested_urls (events w)
          ++ [(rstrip_slash base ++ "/api/market")%string;
              (rstrip_slash base ++ "/api/exchange_flows")%string;
              (rstrip_slash base ++ "/api/stablecoin")%string;
              (rstrip_slash base ++ "/api/whale_transfers")%string])%list
    /\ messages (events w') = messages (events w).
Proof.
  intros Hb Hne.
  destruct (try_get_requests cfg "/api/market" w base Hb Hne) as (m & w1 & H1 & R1 & M1).
  destruct (try_get_requests cfg "/api/exchange_flows" w1 base Hb Hne)
    as (f & w2 & H2 & R2 & M2).
  destruct (try_get_requests cfg "/api/stablecoin" w2 base Hb Hne)
    as (s & w3 & H3 & R3 & M3).
  destruct (try_get_requests cfg "/api/whale_transfers" w3 base Hb Hne)
    as (wh & w4 & H4 & R4 & M4).
  exists (build_overview m f s wh), w4.
  split; [unfold fetch_dashboard_overview, io_bind; rewrite H1, H2, H3, H4; reflexivity|].
  split.
  - rewrite R4, R3, R2, R1, <- !app_assoc. reflexivity.
  - rewrite M4, M3, M2, M1. reflexivity.
Qed.

Lemma py_or_stays_truthy a b : truthy b = true -> truthy (py_or a b) = true.
Proof. unfold py_or. intros Hb. destruct (truthy a) eqn:Ha; assumption. Qed.

Lemma build_overview_never_empty m f s wh :
  truthy (market (build_overview m f s wh)) = true
  /\ truthy (exchange_flows (build_overview m f s wh)) = true
  /\ truthy (stablecoin (build_overview m f s wh)) = true
  /\ whale_transfers (build_overview m f s wh) <> VNone.
Proof.
  rewrite build_overview_market, build_overview_exchange_flows,
    build_overview_stablecoin, build_overview_whale_transfers.
  repeat split; try (apply py_or_stays_truthy; reflexivity).
  destruct (truthy m && truthy f && truthy s && is_not_None wh)%bool eqn:E.
  - apply andb_prop in E. destruct E as [_ E]. destruct wh; discriminate.
  - unfold py_or. destruct (truthy wh) eqn:Hw; [|discriminate].
    destruct wh; discriminate.
Qed.

(** X6: whatever the upstream answers, [fetch_dashboard_overview] returns
    an overview whose market, exchange-flows and stablecoin sections are
    non-empty and whose whale section is not [None]; and with [m], [f], [s]
    and [wh] what the calls for the market, the exchange flows, the
    stablecoin and the whale transfers returned, in that order, each section
    is the answer of its own call or the sample section. *)
Theorem fetched_sections_never_empty (cfg : config) (w : world) :
  exists m f s wh w1 w2 w3 w4 ov,
    try_get cfg "/api/market" w = (Ok m, w1)
    /\ try_get cfg "/api/exchange_flows" w1 = (Ok f, w2)
    /\ try_get cfg "/api/stablecoin" w2 = (Ok s, w3)
    /\ try_get cfg "/api/whale_transfers" w3 = (Ok wh, w4)
    /\ fetch_dashboard_overview cfg w = (Ok ov, w4)
    /\ truthy (market ov) = true
    /\ truthy (exchange_flows ov) = true
    /\ truthy (stablecoin ov) = true
    /\ whale_transfers ov <> VNone
    /\ (market ov = m \/ market ov = market SAMPLE_OVERVIEW)
    /\ (exchange_flows ov = f \/ exchange_flows ov = exchange_flows SAMPLE_OVERVIEW)
    /\ (stablecoin ov = s \/ stablecoin ov = stablecoin SAMPLE_OVERVIEW)
    /\ (whale_transfers ov = wh \/ whale_transfers ov = whale_transfers SAMPLE_OVERVIEW).
Proof.
  destruct (fetch_dashboard_overview_runs cfg w)
    as (m & f & s & wh & w1 & w2 & w3 & w4 & H1 & H2 & H3 & H4 & Hrun).
  exists m, f, s, wh, w1, w2, w3, w4, (build_overview m f s wh).
  repeat (split; [assumption|]).
  destruct (build_overview_never_empty m f s wh) as (T1 & T2 & T3 & T4).
  repeat (split; [assumption|]).
  rewrite build_overview_market, build_overview_exchange_flows,
    build_overview_stablecoin, build_overview_whale_transfers.
  unfold py_or.
  destruct (truthy m), (truthy f), (truthy s), (truthy wh), (is_not_None wh);
    simpl; tauto.
Qed.

End Requests.

(** ** Shortened addresses *)

Lemma length_append_string (a b : string) :
  String.length (a ++ b) = (String.length a + String.length b)%nat.
Proof. induction a as [|c a IH]; simpl; [|rewrite IH]; reflexivity. Qed.

Lemma length_substring (s : string) : forall n m,
  (n + m <= String.length s)%nat -> String.length (substring n m s) = m.
Proof.
  induction s as [|c s IH]; intros n m H; simpl in H.
  - assert (n = 0%nat) by lia. assert (m = 0%nat) by lia. subst. reflexivity.
  - destruct n as [|n]; simpl.
    + destruct m as [|m]; [reflexivity|]. simpl. rewrite IH by lia. reflexivity.
    + apply IH. lia.
Qed.

Lemma substring_prefix (p x : string) : substring 0 (String.length p) (p ++ x) = p.
Proof.
  induction p as [|c p IH]; simpl; [destruct x; reflexivity|].
  rewrite IH. reflexivity.
Qed.

Lemma substring_skip (a q : string) m :
  substring (String.length a) m (a ++ q) = substring 0 m q.
Proof. induction a as [|c a IH]; simpl; [reflexivity | exact IH]. Qed.

Lemma substring_whole (q : string) : substring 0 (String.length q) q = q.
Proof. induction q as [|c q IH]; simpl; [|rewrite IH]; reflexivity. Qed.

Section Addresses.
Context {R : PyRuntime}.

(** [short_addr] on a text, by its length. *)
Lemma short_addr_text_cases (s : string) :
  ((String.length s < 10)%nat /\ short_addr (VStr s) = Ok (VStr s))
  \/ ((10 <= String.length s)%nat
      /\ short_addr (VStr s)
         = Ok (VStr (substring 0 6 s ++ "..."
                     ++ substring (String.length s - 4) 4 s))).
Proof.
  unfold short_addr. simpl.
  destruct (String.eqb_spec s "") as [-> | Hne]; simpl.
  - left. split; [lia | reflexivity].
  - destruct (Nat.ltb_spec (String.length s) 10) as [Hlt | Hge].
    + left. split; [exact Hlt|]. unfold py_or. simpl.
      destruct (String.eqb_spec s ""); [contradiction | reflexivity].
    + right. split; [exact Hge | reflexivity].
Qed.

(** X7: on a text, [short_addr] returns the text itself when it has fewer
    than 10 characters, and otherwise its first six characters, three dots
    and its last four: 13 characters, so a text of 10 to 12 characters
    comes out longer than it went in. *)
Theorem short_addr_text (s : string) :
  exists r,
    short_addr (VStr s) = Ok (VStr r)
    /\ ((String.length s < 10)%nat -> r = s)
    /\ ((10 <= String.length s)%nat ->
        r = substring 0 6 s ++ "..." ++ substring (String.length s - 4) 4 s
        /\ String.length (substring 0 6 s) = 6%nat
        /\ String.length (substring (String.length s - 4) 4 s) = 4%nat
        /\ String.length r = 13%nat).
Proof.
  destruct (short_addr_text_cases s) as [[Hlt H] | [Hge H]].
  - exists s. split; [exact H|]. split; [reflexivity | lia].
  - eexists. split; [exact H|]. split; [lia|]. intros _.
    assert (H6 : String.length (substring 0 6 s) = 6%nat)
      by (apply length_substring; lia).
    assert (H4 : String.length (substring (String.length s - 4) 4 s) = 4%nat)
      by (apply length_substring; lia).
    split; [reflexivity|]. split; [exact H6|]. split; [exact H4|].
    rewrite !length_append_string, H6, H4. reflexivity.
Qed.

(** X8: shortening is idempotent on texts: what [short_addr] returns for a
    text it returns unchanged when given it again. *)
Theorem short_addr_idempotent (s : string) :
  exists r, short_addr (VStr s) = Ok (VStr r) /\ short_addr (VStr r) = Ok (VStr r).
Proof.
  destruct (short_addr_text_cases s) as [[Hlt H] | [Hge H]].
  - exists s. split; exact H.
  - eexists. split; [exact H|].
    set (p := substring 0 6 s). set (q := substring (String.length s - 4) 4 s).
    assert (H6 : String.length p = 6%nat) by (apply length_substring; lia).
    assert (H4 : String.length q = 4%nat) by (apply length_substring; lia).
    destruct (short_addr_text_cases (p ++ "..." ++ q)) as [[Hlt' _] | [_ H']].
    + rewrite !length_append_string, H6, H4 in Hlt'. simpl in Hlt'. lia.
    + rewrite H'.
      pose proof (substring_prefix p ("..." ++ q)) as E1. rewrite H6 in E1.
      pose proof (substring_skip (p ++ "...") q 4) as E2.
      rewrite length_append_string, H6, append_assoc_string in E2.
      change (6 + String.length "...")%nat with 9%nat in E2.
      pose proof (substring_whole q) as E3. rewrite H4 in E3.
      assert (E4 : (String.length (p ++ "..." ++ q) - 4 = 9)%nat)
        by (rewrite !length_append_string, H6, H4; reflexivity).
      rewrite E4, E1, E2, E3. reflexivity.
Qed.

(** X9: [short_addr] returns the empty text for every falsy value ([None],
    zero, [False], an empty text, list or object), and raises [TypeError]
    for a number that is not zero, which has no length. *)
Theorem short_addr_not_text (v : value) :
  (truthy v = false -> short_addr v = Ok (VStr ""))
  /\ (forall x, number v = Some x -> truthy v = true -> short_addr v = Raise TypeError).
Proof.
  split.
  - intros H. unfold short_addr, py_or. rewrite H. reflexivity.
  - intros x Hx H. unfold short_addr. rewrite H.
    destruct v; try discriminate; reflexivity.
Qed.

End Addresses.

(** ** More on the insight message *)

Section InsightMore.
Context {R : PyRuntime}.

(** The flow rule, read off its three branches. *)
Lemma flow_lines_spec v x :
  number v = Some x ->
  (In flow_accumulation (flow_lines v) <-> below x 0)
  /\ (In flow_distribution (flow_lines v) <-> ~ below x 0 /\ above x 0)
  /\ (In flow_neutral (flow_lines v) <-> ~ below x 0 /\ ~ above x 0).
Proof.
  intros Hv. unfold flow_lines. rewrite Hv.
  pose proof (num_lt_below x 0) as Hlt.
  pose proof (num_gt_above x 0) as Hgt.
  destruct (num_lt x 0).
  - assert (below x 0) by (apply Hlt; reflexivity).
    split; [|split]; line_iff.
  - pose proof (bool_iff_false _ _ Hlt eq_refl).
    destruct (num_gt x 0).
    + assert (above x 0) by (apply Hgt; reflexivity).
      split; [|split]; line_iff.
    + pose proof (bool_iff_false _ _ Hgt eq_refl).
      split; [|split]; line_iff.
Qed.

Lemma rule_lines_short v v' :
  (List.length (flow_lines v) <= 1)%nat
  /\ (List.length (stable_lines v) <= 1)%nat
  /\ (List.length (combined_lines v v') <= 1)%nat.
Proof.
  unfold flow_lines, stable_lines, combined_lines.
  destruct (number v) as [x|]; destruct (number v') as [y|]; simpl;
    repeat match goal with
           | |- context [if ?b then _ else _] => destruct b
           end; simpl; lia.
Qed.

(** X10: with the net exchange flow a number [x], the message has the
    accumulation flow line and no other flow line when [x < 0], the
    distribution line and no other when [x > 0], and the neutral line and
    no other when [x] is neither, which is zero and also not-a-number. *)
Theorem flow_direction_line ov f s m now x :
  exchange_flows ov = VDict f -> stablecoin ov = VDict s -> market ov = VDict m ->
  number (dict_get f "net_flow" VNone) = Some x ->
  exists out,
    derive_insight ov now = Ok out
    /\ (below x 0 ->
        In flow_accumulation out /\ ~ In flow_distribution out /\ ~ In flow_neutral out)
    /\ (above x 0 ->
        In flow_distribution out /\ ~ In flow_accumulation out /\ ~ In flow_neutral out)
    /\ (~ below x 0 -> ~ above x 0 ->
        In flow_neutral out /\ ~ In flow_accumulation out /\ ~ In flow_distribution out)
    /\ (x = NaN -> In flow_neutral out).
Proof.
  intros Hf Hs Hm Hx.
  eexists. split; [apply (derive_insight_shape ov f s m now); assumption|].
  set (netf := dict_get f "net_flow" VNone) in *.
  set (ratio := dict_get s "stablecoin_inflow_ratio_pct" VNone).
  set (stable_net := dict_get s "stablecoin_net_flow" VNone).
  set (price := dict_get m "price_usd" (VStr "N/A")).
  assert (Hin : forall l, In l flow_texts ->
    (In l (header_line price :: flow_lines netf ++ stable_lines ratio
           ++ combined_lines netf stable_net ++ [timestamp_line now])
     <-> In l (flow_lines netf))).
  { intros l Hl.
    apply (in_message l price _ _ _ now (flow_lines_incl netf)
             (stable_lines_incl ratio) (combined_lines_incl netf stable_net)).
    exact Hl. }
  destruct (flow_lines_spec netf x Hx) as (Hacc & Hdist & Hneu).
  rewrite <- (Hin flow_accumulation) in Hacc by (simpl; tauto).
  rewrite <- (Hin flow_distribution) in Hdist by (simpl; tauto).
  rewrite <- (Hin flow_neutral) in Hneu by (simpl; tauto).
  pose proof (below_above_exclusive x 0) as Hex.
  repeat match goal with |- _ /\ _ => split end; try tauto.
  intros ->. apply Hneu. simpl. tauto.
Qed.

(** X11: the combined line never contradicts the flow line: a message with
    the strong-accumulation line or the divergence warning has the
    accumulation flow line, and a message with the bearish line has the
    distribution flow line. *)
Theorem combined_line_agrees_with_flow_line ov f s m now :
  exchange_flows ov = VDict f -> stablecoin ov = VDict s -> market ov = VDict m ->
  exists out,
    derive_insight ov now = Ok out
    /\ (In combined_accumulation out \/ In combined_divergence out ->
        In flow_accumulation out)
    /\ (In combined_bearish out -> In flow_distribution out).
Proof.
  intros Hf Hs Hm.
  eexists. split; [apply (derive_insight_shape ov f s m now); assumption|].
  set (netf := dict_get f "net_flow" VNone).
  set (ratio := dict_get s "stablecoin_inflow_ratio_pct" VNone).
  set (stable_net := dict_get s "stablecoin_net_flow" VNone).
  set (price := dict_get m "price_usd" (VStr "N/A")).
  destruct (in_message combined_accumulation price _ _ _ now (flow_lines_incl netf)
              (stable_lines_incl ratio) (combined_lines_incl netf stable_net))
    as (_ & _ & Ca).
  destruct (in_message combined_divergence price _ _ _ now (flow_lines_incl netf)
              (stable_lines_incl ratio) (combined_lines_incl netf stable_net))
    as (_ & _ & Cd).
  destruct (in_message combined_bearish price _ _ _ now (flow_lines_incl netf)
              (stable_lines_incl ratio) (combined_lines_incl netf stable_net))
    as (_ & _ & Cb).
  destruct (in_message flow_accumulation price _ _ _ now (flow_lines_incl netf)
              (stable_lines_incl ratio) (combined_lines_incl netf stable_net))
    as (Fa & _ & _).
  destruct (in_message flow_distribution price _ _ _ now (flow_lines_incl netf)
              (stable_lines_incl ratio) (combined_lines_incl netf stable_net))
    as (Fd & _ & _).
  rewrite Ca, Cd, Cb, Fa, Fd by (simpl; tauto).
  destruct (number netf) as [x|] eqn:Hx;
    [|rewrite (combined_lines_not_a_number netf stable_net (or_introl Hx));
      simpl; tauto].
  destruct (number stable_net) as [y|] eqn:Hy;
    [|rewrite (combined_lines_not_a_number netf stable_net (or_intror Hy));
      simpl; tauto].
  destruct (combined_lines_spec netf stable_net x y Hx Hy) as (Hacc & Hdiv & Hbear).
  destruct (flow_lines_spec netf x Hx) as (Hfa & Hfd & _).
  pose proof (below_above_exclusive x 0) as Hex.
  rewrite Hacc, Hdiv, Hbear, Hfa, Hfd. tauto.
Qed.

(** X12: the message has from two to five lines; the first is the header
    with the price and the last is the timestamp. *)
Theorem insight_has_two_to_five_lines ov f s m now :
  exchange_flows ov = VDict f -> stablecoin ov = VDict s -> market ov = VDict m ->
  exists out,
    derive_insight ov now = Ok out
    /\ (2 <= List.length out <= 5)%nat
    /\ hd_error out = Some (header_line (dict_get m "price_usd" (VStr "N/A")))
    /\ last out "" = timestamp_line now.
Proof.
  intros Hf Hs Hm.
  eexists. split; [apply (derive_insight_shape ov f s m now); assumption|].
  set (netf := dict_get f "net_flow" VNone).
  set (ratio := dict_get s "stablecoin_inflow_ratio_pct" VNone).
  set (stable_net := dict_get s "stablecoin_net_flow" VNone).
  destruct (rule_lines_short netf stable_net) as (L1 & _ & L3).
  destruct (rule_lines_short ratio ratio) as (_ & L2 & _).
  split; [|split; [reflexivity|]].
  - simpl. rewrite !length_app. simpl. lia.
  - rewrite app_comm_cons, !app_assoc. apply last_last.
Qed.

End InsightMore.

(** ** The commands and the alert cycle *)

Section NoMessage.
Context {O : Outside}.

(** [try_get] and [fetch_dashboard_overview] return and send no message. *)
Lemma try_get_no_message (cfg : config) path (w : world) :
  exists v w', try_get cfg path w = (Ok v, w') /\ messages (events w') = messages (events w).
Proof.
  destruct (DASHBOARD_API_URL cfg) as [base|] eqn:Hb.
  - destruct (String.eqb_spec base "") as [-> | Hne].
    + exists VNone, w. split; [|reflexivity].
      apply try_get_no_base_url. rewrite Hb. reflexivity.
    + destruct (try_get_requests cfg path w base Hb Hne) as (v & w' & H & _ & M).
      exists v, w'. split; assumption.
  - exists VNone, w. split; [|reflexivity].
    apply try_get_no_base_url. rewrite Hb. reflexivity.
Qed.

Lemma fetch_no_message (cfg : config) (w : world) :
  exists ov w',
    fetch_dashboard_overview cfg w = (Ok ov, w')
    /\ messages (events w') = messages (events w).
Proof.
  destruct (try_get_no_message cfg "/api/market" w) as (m & w1 & H1 & M1).
  destruct (try_get_no_message cfg "/api/exchange_flows" w1) as (f & w2 & H2 & M2).
  destruct (try_get_no_message cfg "/api/stablecoin" w2) as (s & w3 & H3 & M3).
  destruct (try_get_no_message cfg "/api/whale_transfers" w3) as (wh & w4 & H4 & M4).
  exists (build_overview m f s wh), w4. split.
  - unfold fetch_dashboard_overview, io_bind. rewrite H1, H2, H3, H4. reflexivity.
  - rewrite M4, M3, M2, M1. reflexivity.
Qed.

End NoMessage.

Section CommandsAndCycle.
Context {R : PyRuntime} {S : PySigned} {O : Outside}.


(** X14: the alert cycle never delivers a message.  With an operator
    channel configured it fetches the overview and then: raises when
    building the alerts raises; does nothing more when there is no alert,
    without reading the channel identifier; and with alerts it evaluates
    [int(ADMIN_CHAT_ID)], raising when that is not an integer, and calls
    [send_message] with all alerts joined by line breaks without awaiting
    it.  In every case the messages delivered are those delivered before. *)
Theorem alert_cycle_outcomes (cfg : config) (w : world) admin :
  ADMIN_CHAT_ID cfg = Some admin -> admin <> "" ->
  exists ov w1,
    fetch_dashboard_overview cfg w = (Ok ov, w1)
    /\ match evaluate_alerts ov with
       | Raise e => check_and_send_alert cfg w = (Raise e, w1)
       | Ok [] => check_and_send_alert cfg w = (Ok tt, w1)
       | Ok (a :: rest) =>
           match py_int admin with
           | Ok chat_id =>
               check_and_send_alert cfg w
               = (Ok tt, record_event (Unawaited chat_id (join_lines (a :: rest))) w1)
           | Raise e => check_and_send_alert cfg w = (Raise e, w1)
           end
       end
    /\ messages (events (snd (check_and_send_alert cfg w))) = messages (events w).
Proof.
  intros Ha Hne.
  destruct (fetch_no_message cfg w) as (ov & w1 & Hrun & M).
  exists ov, w1. split; [exact Hrun|].
  unfold check_and_send_alert. rewrite Ha.
  destruct admin as [|c admin]; [contradiction|].
  unfold io_bind, io_lift, emit, io_ret, record_event. rewrite Hrun.
  destruct (evaluate_alerts ov) as [[|a rest]|e]; try (split; [reflexivity | exact M]).
  destruct (py_int (String c admin)); (split; [reflexivity|]); simpl;
    rewrite ?messages_app, ?M; simpl; rewrite ?app_nil_r; reflexivity.
Qed.

End CommandsAndCycle.

Section Listings.
Context {R : PyRuntime}.

Lemma whale_line_transfer t : is_transfer t = true -> exists line, whale_line t = Ok line.
Proof.
  destruct t; try discriminate. simpl. intros H.
  apply andb_prop in H. destruct H as [Hfrom Hto].
  destruct (short_addr_address _ Hfrom) as [a Ha].
  destruct (short_addr_address _ Hto) as [b Hb].
  unfold whale_line. simpl. rewrite Ha. simpl. rewrite Hb. simpl. eauto.
Qed.

Lemma whale_lines_transfers ts :
  forallb is_transfer ts = true ->
  exists lines,
    whale_lines ts = Ok lines /\ Forall2 (fun t l => whale_line t = Ok l) ts lines.
Proof.
  induction ts as [|t ts IH]; intros H.
  - exists []. split; [reflexivity | constructor].
  - simpl in H. apply andb_prop in H. destruct H as [Ht Hts].
    destruct (IH Hts) as (lines & Hlines & Hall).
    destruct (whale_line_transfer t Ht) as [line Hline].
    exists (line :: lines). simpl. rewrite Hline, Hlines.
    split; [reflexivity | constructor; assumption].
Qed.

Lemma forallb_firstn {A} (p : A -> bool) n l :
  forallb p l = true -> forallb p (firstn n l) = true.
Proof.
  revert n. induction l as [|a l IH]; intros [|n] H; try reflexivity.
  simpl in *. apply andb_prop in H. destruct H as [Ha Hl].
  rewrite Ha, (IH n Hl). reflexivity.
Qed.

(** X16: for a whale section that is a list of transfers, [whales_cmd]
    answers "No recent whale transfers." when the list is empty, and
    otherwise a title followed by one line for each of the first ten
    transfers, in the order of the list; later transfers are not listed. *)
Theorem whales_text_lists_first_ten ts :
  forallb is_transfer ts = true ->
  (ts = [] -> whales_text (VList ts) = Ok "No recent whale transfers.")
  /\ (ts <> [] ->
      exists lines,
        whales_text (VList ts) = Ok (join_lines ("Recent Whale Transfers" :: lines))
        /\ Forall2 (fun t l => whale_line t = Ok l) (firstn 10 ts) lines
        /\ List.length lines = Nat.min 10 (List.length ts)).
Proof.
  intros Hts. split.
  - intros ->. reflexivity.
  - intros Hne.
    destruct (whale_lines_transfers (firstn 10 ts) (forallb_firstn _ 10 ts Hts))
      as (lines & Hlines & Hall).
    exists lines. split; [|split; [exact Hall|]].
    + unfold whales_text. cbn [slice_to rbind py_iter].
      destruct ts as [|t ts]; [contradiction|].
      cbn [firstn truthy negb]. cbn [firstn] in Hlines. rewrite Hlines. reflexivity.
    + rewrite <- (Forall2_length Hall). apply length_firstn.
Qed.

(** An entry of the whale list that is not an object makes the loop of the
    alerts raise, wherever it stands. *)
Lemma whale_alerts_raise ts t :
  In t ts -> is_object t = false -> exists e, whale_alerts ts = Raise e.
Proof.
  induction ts as [|t0 ts IH]; intros Hin Ht; [contradiction|].
  rewrite whale_alerts_cons.
  destruct (is_object t0) eqn:H0.
  - destruct Hin as [-> | Hin]; [rewrite Ht in H0; discriminate|].
    destruct (IH Hin Ht) as [e He].
    destruct (py_get t0 "amount" (VInt 0)) as [amt|e0]; [|simpl; eauto]. simpl.
    destruct (big_amount amt).
    + destruct (whale_alert t0 amt) as [line|e1]; [|simpl; eauto].
      simpl. rewrite He. simpl. eauto.
    + simpl. rewrite He. simpl. eauto.
  - destruct t0; try discriminate; simpl; eauto.
Qed.

(** X18: one entry of the whale list that is not an object makes the
    building of the alerts raise, so that no alert at all is produced, the
    flow alert included. *)
Theorem malformed_transfer_stops_all_alerts ov f ts t :
  exchange_flows ov = VDict f -> whale_transfers ov = VList ts ->
  In t ts -> is_object t = false ->
  exists e, evaluate_alerts ov = Raise e.
Proof.
  intros Hf Hw Hin Ht.
  rewrite (evaluate_alerts_shape ov f ts Hf Hw).
  destruct (whale_alerts_raise ts t Hin Ht) as [e ->]. simpl. eauto.
Qed.

End Listings.

Section Market.
Context {R : PyRuntime} {S : PySigned}.

(** X17: [market_cmd] cannot build its message when the market section has
    a 24h price change that is not a number: it raises [ValueError] for a
    text and [TypeError] for [null], a list or an object. *)
Theorem market_text_needs_numeric_change d v now :
  assoc d "price_change_24h_pct" = Some v -> number v = None ->
  market_text (VDict d) now
  = Raise (match v with VStr _ => ValueError | _ => TypeError end).
Proof.
  intros Hv Hn. unfold market_text, py_get, dict_get. rewrite Hv. simpl.
  destruct v; try discriminate; reflexivity.
Qed.

End Market.

(** ** The further properties at concrete inputs *)

Lemma try_get_ignores_trailing_slashes_witness :
  @try_get scripted_outside with_admin "/api/market" answering
  = @try_get scripted_outside bare_base_url "/api/market" answering.
Proof.
  exact (@try_get_ignores_trailing_slashes scripted_outside bare_base_url with_admin
           "https://api.example" 1 "/api/market" answering
           ltac:(discriminate) eq_refl eq_refl eq_refl).
Defined.

Lemma try_get_one_request_witness :
  exists v w',
    @try_get scripted_outside with_admin "/api/market" answering = (Ok v, w')
    /\ requested_urls (events w') = ["https://api.example/api/market"].
Proof.
  destruct (@try_get_one_request scripted_outside with_admin "/api/market" answering
              "https://api.example/" eq_refl ltac:(discriminate))
    as (v & w' & Hrun & _ & Hreq & _).
  exists v, w'. split; [exact Hrun | exact Hreq].
Defined.

Lemma fetch_makes_four_requests_witness :
  exists ov w',
    @fetch_dashboard_overview scripted_outside with_admin unreachable = (Ok ov, w')
    /\ requested_urls (events w') =
         ["https://api.example/api/market"; "https://api.example/api/exchange_flows";
          "https://api.example/api/stablecoin"; "https://api.example/api/whale_transfers"].
Proof.
  destruct (@fetch_makes_four_requests scripted_outside with_admin unreachable
              "https://api.example/" eq_refl ltac:(discriminate))
    as (ov & w' & Hrun & Hreq & _).
  exists ov, w'. split; [exact Hrun | exact Hreq].
Defined.

Lemma flow_direction_line_witness :
  exists out,
    @derive_insight demo_runtime SAMPLE_OVERVIEW new_year_2025 = Ok out
    /\ In flow_accumulation out.
Proof.
  destruct (@flow_direction_line demo_runtime SAMPLE_OVERVIEW _ _ _ new_year_2025
              (Fin (inject_Z (-132985346))) eq_refl eq_refl eq_refl eq_refl)
    as (out & Hout & Hacc & _).
  exists out. split; [exact Hout|]. apply Hacc. reflexivity.
Defined.

Lemma combined_line_agrees_with_flow_line_witness :
  exists out,
    @derive_insight demo_runtime SAMPLE_OVERVIEW new_year_2025 = Ok out
    /\ (In combined_bearish out -> In flow_distribution out).
Proof.
  destruct (@combined_line_agrees_with_flow_line demo_runtime SAMPLE_OVERVIEW _ _ _
              new_year_2025 eq_refl eq_refl eq_refl)
    as (out & Hout & _ & Hb).
  exists out. split; [exact Hout | exact Hb].
Defined.

Lemma insight_has_two_to_five_lines_witness :
  exists out,
    @derive_insight demo_runtime sparse_overview new_year_2025 = Ok out
    /\ (2 <= List.length out <= 5)%nat.
Proof.
  destruct (@insight_has_two_to_five_lines demo_runtime sparse_overview _ _ _
              new_year_2025 eq_refl eq_refl eq_refl)
    as (out & Hout & Hlen & _).
  exists out. split; [exact Hout | exact Hlen].
Defined.

Lemma alert_cycle_outcomes_witness :
  messages (events (snd (@check_and_send_alert demo_runtime scripted_outside
                           with_admin unreachable))) = [].
Proof.
  destruct (@alert_cycle_outcomes demo_runtime scripted_outside with_admin unreachable
              "42" eq_refl ltac:(discriminate))
    as (ov & w1 & _ & _ & M).
  exact M.
Defined.

Lemma whales_text_lists_first_ten_witness :
  exists lines,
    @whales_text demo_runtime (whale_transfers SAMPLE_OVERVIEW)
    = Ok (join_lines ("Recent Whale Transfers" :: lines))
    /\ List.length lines = 2%nat.
Proof.
  destruct (@whales_text_lists_first_ten demo_runtime _ (eq_refl :
              forallb is_transfer
                [transfer_of (VFloat f_1851370_43);
                 VDict [("token", VStr "USDT"); ("from", VStr "0x17dc...403a");
                        ("to", VStr "0xaa8b...3efb"); ("amount", VFloat f_39365167_96)]]
              = true)) as [_ H].
  destruct (H ltac:(discriminate)) as (lines & Htext & _ & Hlen).
  exists lines. split; [exact Htext | exact Hlen].
Defined.

Lemma malformed_transfer_stops_all_alerts_witness :
  exists e,
    @evaluate_alerts demo_runtime
       (overview_of (VInt (-60000000)) VNone VNone [transfer_of (VInt 1); VInt 7])
    = Raise e.
Proof.
  exact (@malformed_transfer_stops_all_alerts demo_runtime
           (overview_of (VInt (-60000000)) VNone VNone [transfer_of (VInt 1); VInt 7])
           _ _ (VInt 7) eq_refl eq_refl (or_intror (or_introl eq_refl)) eq_refl).
Defined.

Lemma market_text_needs_numeric_change_witness :
  @market_text demo_runtime demo_signed
     (VDict [("price_usd", VInt 3000); ("price_change_24h_pct", VNone)]) new_year_2025
  = Raise TypeError.
Proof.
  exact (@market_text_needs_numeric_change demo_runtime demo_signed
           [("price_usd", VInt 3000); ("price_change_24h_pct", VNone)] VNone
           new_year_2025 eq_refl eq_refl).
Defined.

(** The commands on the sample data. *)
Example market_text_on_sample :
  @market_text demo_runtime demo_signed (market SAMPLE_OVERVIEW) new_year_2025
  = Ok ("ETH Market Overview" ++ nl ++ nl
        ++ "Price: $3,757.84 (24h: -13.22%)" ++ nl
        ++ "24h Volume: $104,010,000,000.00" ++ nl
        ++ "Market Cap: $454,450,000,000.00" ++ nl
        ++ "As of 2025-01-01 00:00:00 UTC").
Proof. reflexivity. Qed.

Example whales_text_on_sample :
  @whales_text demo_runtime (whale_transfers SAMPLE_OVERVIEW)
  = Ok ("Recent Whale Transfers" ++ nl
        ++ "- USDT 0xc0ba...1a09 → 0x28c6...1d60 : $1,851,370.43" ++ nl
        ++ "- USDT 0x17dc...403a → 0xaa8b...3efb : $39,365,167.96").
Proof. reflexivity. Qed.

(** ** Fallback, and alerts against the insight *)

(** X4: the rule of every section of the overview.  The market,
    exchange-flows and stablecoin sections are the answer of their call when
    it is truthy and the sample section otherwise, so [null], [false], [0],
    an empty text, list or object are replaced like a failed call.  The
    whale section is the answer when it is truthy, or when it is not [None]
    and the three other answers are truthy, and the sample transfers
    otherwise. *)
Theorem build_overview_section_rule (m f s wh : value) :
  let ov := build_overview m f s wh in
  market ov = (if truthy m then m else market SAMPLE_OVERVIEW)
  /\ exchange_flows ov = (if truthy f then f else exchange_flows SAMPLE_OVERVIEW)
  /\ stablecoin ov = (if truthy s then s else stablecoin SAMPLE_OVERVIEW)
  /\ whale_transfers ov =
       (if truthy wh then wh
        else if (truthy m && truthy f && truthy s && is_not_None wh)%bool then wh
        else whale_transfers SAMPLE_OVERVIEW).
Proof.
  intros ov. subst ov.
  rewrite build_overview_market, build_overview_exchange_flows,
    build_overview_stablecoin, build_overview_whale_transfers.
  unfold py_or.
  destruct (truthy m), (truthy f), (truthy s), (truthy wh), (is_not_None wh);
    repeat split; reflexivity.
Qed.

Lemma at_most_negative_below x c : c < 0 -> at_most x c -> below x 0.
Proof.
  intros Hc. destruct x as [| | |q]; simpl; try tauto.
  intros H. eapply Qle_lt_trans; [exact H|].
  change 0%Q with (inject_Z 0). rewrite <- Zlt_Qlt. exact Hc.
Qed.

Lemma at_least_positive_above x c : 0 < c -> at_least x c -> above x 0.
Proof.
  intros Hc. destruct x as [| | |q]; simpl; try tauto.
  intros H. eapply Qlt_le_trans; [|exact H].
  change 0%Q with (inject_Z 0). rewrite <- Zlt_Qlt. exact Hc.
Qed.

Section AlertsAndInsight.
Context {R : PyRuntime}.

(** X19: when the net flow is absent from the exchange-flows object, or is
    not a number, no flow alert is raised and the alerts are those of the
    whale list alone. *)
Theorem no_flow_alert_without_numeric_net_flow ov f ts :
  exchange_flows ov = VDict f -> whale_transfers ov = VList ts ->
  assoc f "net_flow" = None \/ number (dict_get f "net_flow" (VInt 0)) = None ->
  evaluate_alerts ov = whale_alerts ts.
Proof.
  intros Hf Hw Hn. rewrite (evaluate_alerts_shape ov f ts Hf Hw).
  assert (E : flow_alerts (dict_get f "net_flow" (VInt 0)) = []).
  { destruct Hn as [Hn | Hn].
    - unfold dict_get. rewrite Hn. reflexivity.
    - unfold flow_alerts. rewrite Hn. reflexivity. }
  rewrite E. destruct (whale_alerts ts); reflexivity.
Qed.

(** X20: the alerts and the insight agree on one overview: when the
    strong-accumulation alert is raised the insight has the accumulation
    flow line, and when the strong-distribution alert is raised it has the
    distribution flow line. *)
Theorem flow_alert_agrees_with_insight ov f s m ts now :
  exchange_flows ov = VDict f -> stablecoin ov = VDict s -> market ov = VDict m ->
  whale_transfers ov = VList ts -> forallb is_transfer ts = true ->
  let netf := dict_get f "net_flow" (VInt 0) in
  exists alerts out,
    evaluate_alerts ov = Ok alerts
    /\ derive_insight ov now = Ok out
    /\ (In (accumulation_alert netf) alerts -> In flow_accumulation out)
    /\ (In (distribution_alert netf) alerts -> In flow_distribution out).
Proof.
  intros Hf Hs Hm Hw Hts netf.
  destruct (whale_alerts_transfers ts Hts) as (ws & Hws & _).
  exists (flow_alerts netf ++ ws)%list. eexists.
  split; [rewrite (evaluate_alerts_shape ov f ts Hf Hw), Hws; reflexivity|].
  split; [apply (derive_insight_shape ov f s m now); assumption|].
  destruct (flow_alert_not_whale netf ts ws Hws) as [Nacc Ndist].
  set (netf' := dict_get f "net_flow" VNone).
  set (ratio := dict_get s "stablecoin_inflow_ratio_pct" VNone).
  set (stable_net := dict_get s "stablecoin_net_flow" VNone).
  set (price := dict_get m "price_usd" (VStr "N/A")).
  destruct (in_message flow_accumulation price _ _ _ now (flow_lines_incl netf')
              (stable_lines_incl ratio) (combined_lines_incl netf' stable_net))
    as (Fa & _ & _).
  destruct (in_message flow_distribution price _ _ _ now (flow_lines_incl netf')
              (stable_lines_incl ratio) (combined_lines_incl netf' stable_net))
    as (Fd & _ & _).
  rewrite Fa, Fd by (simpl; tauto). rewrite !in_app_iff.
  destruct (number netf) as [x|] eqn:Hx.
  2:{ unfold flow_alerts. rewrite Hx. simpl. tauto. }
  destruct (flow_alerts_spec netf x Hx) as [Hacc Hdist].
  destruct (assoc f "net_flow") as [v|] eqn:Hv.
  - assert (Hsame : netf' = netf)
      by (unfold netf', netf, dict_get; rewrite Hv; reflexivity).
    rewrite Hsame.
    destruct (flow_lines_spec netf x Hx) as (Hfa & Hfd & _).
    pose proof (at_most_negative_below x ACCUM_THRESHOLD eq_refl) as Hneg.
    pose proof (at_least_positive_above x DIST_THRESHOLD eq_refl) as Hpos.
    pose proof (below_above_exclusive x 0) as Hex.
    rewrite Hfa, Hfd. tauto.
  - assert (Hzero : flow_alerts netf = [])
      by (unfold netf, dict_get; rewrite Hv; reflexivity).
    rewrite Hzero. simpl. tauto.
Qed.

End AlertsAndInsight.

Lemma no_flow_alert_without_numeric_net_flow_witness :
  @evaluate_alerts demo_runtime
     {| market := market SAMPLE_OVERVIEW;
        exchange_flows := VDict [("sentiment", VStr "n/a")];
        stablecoin := stablecoin SAMPLE_OVERVIEW;
        whale_transfers := whale_transfers SAMPLE_OVERVIEW |}
  = @whale_alerts demo_runtime
      [transfer_of (VFloat f_1851370_43);
       VDict [("token", VStr "USDT"); ("from", VStr "0x17dc...403a");
              ("to", VStr "0xaa8b...3efb"); ("amount", VFloat f_39365167_96)]].
Proof.
  exact (@no_flow_alert_without_numeric_net_flow demo_runtime
           {| market := market SAMPLE_OVERVIEW;
              exchange_flows := VDict [("sentiment", VStr "n/a")];
              stablecoin := stablecoin SAMPLE_OVERVIEW;
              whale_transfers := whale_transfers SAMPLE_OVERVIEW |}
           _ _ eq_refl eq_refl (or_introl eq_refl)).
Defined.

Lemma flow_alert_agrees_with_insight_witness :
  exists alerts out,
    @evaluate_alerts demo_runtime SAMPLE_OVERVIEW = Ok alerts
    /\ @derive_insight demo_runtime SAMPLE_OVERVIEW new_year_2025 = Ok out
    /\ (In (@accumulation_alert demo_runtime (VInt (-132985346))) alerts ->
        In flow_accumulation out).
Proof.
  destruct (@flow_alert_agrees_with_insight demo_runtime SAMPLE_OVERVIEW _ _ _ _
              new_year_2025 eq_refl eq_refl eq_refl eq_refl eq_refl)
    as (alerts & out & Ha & Ho & Hacc & _).
  exists alerts, out. split; [exact Ha|]. split; [exact Ho | exact Hacc].
Defined.
